(** * DataVisualizer.py: the CSV ball-and-stick add-on

    A shallow embedding of [src/DataVisualizer.py] and the properties its
    specification states about it.

    Numbers.  Python floats are embedded as exact rationals extended with
    NaN ([float]): arithmetic is carried out without rounding and without
    infinities.  NaN is kept because pandas produces it on inputs the add-on
    really receives (an empty cell, the minimum of an empty column).  Where
    a property would be lost to overflow in binary64, its statement carries
    the range of the values as a hypothesis ([regular_column]).

    Effects.  Blender's scene is a list of objects threaded through a small
    state-and-exception monad; an exception leaves the objects created so
    far in place, as in Python. *)

From Stdlib Require Import QArith Qminmax Lqa ZArith Lia.
From Stdlib Require Import Bool String Ascii DecimalString List.
From Stdlib Require DecimalNat DecimalFacts Finite.
Import ListNotations.

Local Open Scope Q_scope.

(** ** Python values *)

Module Py.

(** A float: a finite value or NaN. *)
Inductive float : Type :=
| Fin (q : Q)
| NaN.

Definition fadd (a b : float) : float :=
  match a, b with Fin x, Fin y => Fin (x + y) | _, _ => NaN end.

Definition fsub (a b : float) : float :=
  match a, b with Fin x, Fin y => Fin (x - y) | _, _ => NaN end.

Definition fmul (a b : float) : float :=
  match a, b with Fin x, Fin y => Fin (x * y) | _, _ => NaN end.

(** numpy's division yields an infinity or NaN on a zero divisor; the
    add-on never divides by zero (see [denominator_not_zero]), and the
    model has no infinities, so that case is NaN here. *)
Definition fdiv (a b : float) : float :=
  match a, b with
  | Fin x, Fin y => if Qeq_bool y 0 then NaN else Fin (x / y)
  | _, _ => NaN
  end.

(** [a != b]: NaN differs from everything, itself included. *)
Definition fne (a b : float) : bool :=
  match a, b with
  | Fin x, Fin y => negb (Qeq_bool x y)
  | _, _ => true
  end.

(** Equality of the values two floats denote. *)
Definition feq (a b : float) : Prop :=
  match a, b with
  | Fin x, Fin y => x == y
  | NaN, NaN => True
  | _, _ => False
  end.

(** [lo <= a <= hi], false of NaN. *)
Definition fbetween (lo hi : Q) (a : float) : Prop :=
  match a with
  | Fin x => lo <= x /\ x <= hi
  | NaN => False
  end.

(** The exceptions the add-on can meet.  [ValueError s] is the one
    [float(s)] raises on a text [s] that is no number; [OtherError] stands
    for whatever the CSV reader raises (missing file, parse error, ...). *)
Inductive Exception : Type :=
| KeyError (key : string)
| ValueError (literal : string)
| ZeroDivisionError
| IndexError
| OtherError (cls msg : string).

(** A computation over a store [S]: it ends with a value or an exception,
    and with a store in both cases. *)
Definition M (S A : Type) : Type := S -> (Exception + A) * S.

Definition ret {S A} (a : A) : M S A := fun s => (inr a, s).

Definition bind {S A B} (c : M S A) (k : A -> M S B) : M S B :=
  fun s =>
    match c s with
    | (inr a, s') => k a s'
    | (inl e, s') => (inl e, s')
    end.

Definition raise {S A} (e : Exception) : M S A := fun s => (inl e, s).

(** [try: body  except Exception as e: handler e]. *)
Definition try_except {S A} (body : M S A) (handler : Exception -> M S A)
  : M S A :=
  fun s =>
    match body s with
    | (inr a, s') => (inr a, s')
    | (inl e, s') => handler e s'
    end.

Definition get {S} : M S S := fun s => (inr s, s).

Definition modify {S} (f : S -> S) : M S unit := fun s => (inr tt, f s).

(** A pure step that may raise. *)
Definition lift {S A} (r : Exception + A) : M S A := fun s => (r, s).

(** [for a in l: body a], collecting what each round produces. *)
Fixpoint for_each {S A B} (body : A -> M S B) (l : list A) : M S (list B) :=
  match l with
  | [] => ret []
  | a :: l' =>
      bind (body a) (fun b =>
      bind (for_each body l') (fun bs => ret (b :: bs)))
  end.

(** [enumerate(l)]. *)
Definition enumerate {A} (l : list A) : list (nat * A) :=
  combine (seq 0 (length l)) l.

(** [zip(a, b)] stops at the shorter argument, as [combine] does. *)
Definition zip {A B} (a : list A) (b : list B) : list (A * B) := combine a b.

(** [range(n)] for a possibly negative [n]. *)
Definition range (n : Z) : list nat := seq 0 (Z.to_nat n).

(** [l[i]] for [0 <= i]. *)
Definition getitem {A} (l : list A) (i : nat) : Exception + A :=
  match nth_error l i with
  | Some a => inr a
  | None => inl IndexError
  end.

(** [i / n] on two ints: true division. *)
Definition truediv (i n : nat) : Exception + Q :=
  match n with
  | O => inl ZeroDivisionError
  | _ => inr (inject_Z (Z.of_nat i) / inject_Z (Z.of_nat n))
  end.

(** The decimal text of [i], as an f-string prints it. *)
Definition str_of_nat (i : nat) : string :=
  NilZero.string_of_uint (Nat.to_uint i).

End Py.

Export Py.

Declare Scope monad_scope.
Notation "x <- c ;; k" := (bind c (fun x => k))
  (at level 61, c at next level, right associativity) : monad_scope.
Notation "c ;;; k" := (bind c (fun _ => k))
  (at level 61, right associativity) : monad_scope.

Local Open Scope monad_scope.
Local Open Scope string_scope.

(** ** pandas: the part of a data frame the add-on uses *)

Module pd.

(** A cell as [read_csv] delivers it: a number (NaN for an empty cell) or,
    in a column that holds some non-numeric text, the text itself. *)
Inductive cell : Type :=
| Number (f : float)
| Text (s : string).

(** A frame is kept row by row under its header, so that every column has
    [len df] entries by construction.  A row shorter than the header reads
    as NaN in the missing places, which is how [read_csv] pads it. *)
Record DataFrame : Type := {
  columns : list string;
  rows : list (list cell)
}.

(** [len(df)]. *)
Definition len (df : DataFrame) : nat := List.length (rows df).

Fixpoint index_of (c : string) (cols : list string) : option nat :=
  match cols with
  | [] => None
  | c' :: cols' =>
      if String.eqb c c' then Some O
      else match index_of c cols' with
           | Some k => Some (S k)
           | None => None
           end
  end.

(** [c in df.columns]. *)
Definition has_column (df : DataFrame) (c : string) : bool :=
  existsb (String.eqb c) (columns df).

(** [df[c]]. *)
Definition DataFrame_getitem (df : DataFrame) (c : string)
  : Exception + list cell :=
  match index_of c (columns df) with
  | Some k => inr (map (fun r => nth k r (Number NaN)) (rows df))
  | None => inl (KeyError c)
  end.

Section Astype.

(** Python's [float(s)] on a text: [None] when [s] is no number. *)
Variable float_of_str : string -> option float.

Definition to_float (c : cell) : Exception + float :=
  match c with
  | Number f => inr f
  | Text s =>
      match float_of_str s with
      | Some f => inr f
      | None => inl (ValueError s)
      end
  end.

(** [series.astype(float)]: cell by cell, the first failure raises. *)
Fixpoint astype_float (s : list cell) : Exception + list float :=
  match s with
  | [] => inr []
  | c :: s' =>
      match to_float c with
      | inl e => inl e
      | inr f =>
          match astype_float s' with
          | inl e => inl e
          | inr fs => inr (f :: fs)
          end
      end
  end.

End Astype.

(** The finite entries of a series: [min] and [max] skip NaN. *)
Definition dropna (s : list float) : list Q :=
  flat_map (fun f => match f with Fin q => [q] | NaN => [] end) s.

(** [series.min()]: NaN when nothing is left after skipping NaN. *)
Definition Series_min (s : list float) : float :=
  match dropna s with
  | [] => NaN
  | q :: qs => Fin (fold_left Qmin qs q)
  end.

(** [series.max()]. *)
Definition Series_max (s : list float) : float :=
  match dropna s with
  | [] => NaN
  | q :: qs => Fin (fold_left Qmax qs q)
  end.

(** [series - k] and [series / k] for a scalar [k]. *)
Definition Series_sub (s : list float) (k : float) : list float :=
  map (fun x => fsub x k) s.

Definition Series_div (s : list float) (k : float) : list float :=
  map (fun x => fdiv x k) s.

End pd.

Export pd.

(** ** mathutils: vectors *)

Module mathutils.

Definition Vector : Type := (float * float * float)%type.

Definition Vector_sub (a b : Vector) : Vector :=
  let '(ax, ay, az) := a in
  let '(bx, by_, bz) := b in
  (fsub ax bx, fsub ay by_, fsub az bz).

Definition Vector_add (a b : Vector) : Vector :=
  let '(ax, ay, az) := a in
  let '(bx, by_, bz) := b in
  (fadd ax bx, fadd ay by_, fadd az bz).

(** [v / k] for an int [k]. *)
Definition Vector_div (v : Vector) (k : Q) : Vector :=
  let '(x, y, z) := v in
  (fdiv x (Fin k), fdiv y (Fin k), fdiv z (Fin k)).

(** A Euclidean length is not rational in general.  It is held exactly,
    by its square: [Sqrt r] is the non-negative root of [r]. *)
Inductive root : Type :=
| Sqrt (radicand : float).

Definition radicand (r : root) : float := let 'Sqrt x := r in x.

(** [v.length]. *)
Definition Vector_length (v : Vector) : root :=
  let '(x, y, z) := v in
  Sqrt (fadd (fadd (fmul x x) (fmul y y)) (fmul z z)).

(** [r] is the length [l]. *)
Definition root_is (r : root) (l : Q) : Prop :=
  0 <= l /\ feq (radicand r) (Fin (l * l)).

(** A rotation.  [to_track_quat] is the host's: its result is kept as the
    request that defines it, the rotation that turns the object's [track]
    axis onto [direction] with [up] as the secondary axis. *)
Inductive Quaternion : Type :=
| Identity
| TrackQuat (direction : Vector) (track up : string).

Definition to_track_quat (v : Vector) (track up : string) : Quaternion :=
  TrackQuat v track up.

End mathutils.

Export mathutils.


(** ** bpy: the scene, its objects and their materials *)

Module bpy.

Definition Color : Type := (Q * Q * Q * Q)%type.

(** A shader node and the default values of its colour inputs. *)
Record Node : Type := {
  node_name : string;
  inputs : list (string * Color)
}.

Record Material : Type := {
  mat_name : string;
  use_nodes : bool;
  nodes : list Node
}.

(** The node tree Blender builds when [use_nodes] is switched on. *)
Definition default_nodes : list Node :=
  [ {| node_name := "Principled BSDF";
       inputs := [("Base Color", (8 # 10, 8 # 10, 8 # 10, 1))] |};
    {| node_name := "Material Output"; inputs := [] |} ].

(** [bpy.data.materials.new(name=n)]. *)
Definition materials_new (n : string) : Material :=
  {| mat_name := n; use_nodes := false; nodes := [] |}.

(** [mat.use_nodes = b]. *)
Definition set_use_nodes (mat : Material) (b : bool) : Material :=
  {| mat_name := mat_name mat;
     use_nodes := b;
     nodes := if b then
                match nodes mat with [] => default_nodes | ns => ns end
              else nodes mat |}.

(** [mat.node_tree.nodes.get(n)]. *)
Definition nodes_get (mat : Material) (n : string) : option Node :=
  find (fun nd => String.eqb (node_name nd) n) (nodes mat).

(** [node.inputs[i].default_value = c], on the node called [n] of [mat]. *)
Definition set_default_value (mat : Material) (n i : string) (c : Color)
  : Material :=
  {| mat_name := mat_name mat;
     use_nodes := use_nodes mat;
     nodes :=
       map (fun nd =>
              if String.eqb (node_name nd) n then
                {| node_name := node_name nd;
                   inputs :=
                     map (fun sc => if String.eqb (fst sc) i then (fst sc, c)
                                    else sc)
                         (inputs nd) |}
              else nd)
           (nodes mat) |}.

(** The colour a material shows: the base colour of its Principled BSDF. *)
Definition base_color (mat : Material) : option Color :=
  match nodes_get mat "Principled BSDF" with
  | Some nd =>
      match find (fun sc => String.eqb (fst sc) "Base Color") (inputs nd) with
      | Some sc => Some (snd sc)
      | None => None
      end
  | None => None
  end.

Inductive Mesh : Type :=
| UVSphere (radius : Q)
| Cylinder (radius : Q) (depth : root).

Record Object : Type := {
  name : string;
  data : Mesh;
  location : Vector;
  materials : list Material;
  rotation_mode : string;
  rotation_quaternion : Quaternion
}.

(** The scene: its objects in creation order.  The active object is the one
    created last. *)
Definition Scene : Type := list Object.

(** An object is referred to by its place in the scene. *)
Definition handle : Type := nat.

Definition new_object (n : string) (m : Mesh) (loc : Vector) : Object :=
  {| name := n; data := m; location := loc; materials := [];
     rotation_mode := "XYZ"; rotation_quaternion := Identity |}.

(** [bpy.ops.mesh.primitive_uv_sphere_add(radius=r, location=loc)]. *)
Definition primitive_uv_sphere_add (r : Q) (loc : Vector) : M Scene unit :=
  modify (fun sc => (sc ++ [new_object "Sphere" (UVSphere r) loc])%list).

(** [bpy.ops.mesh.primitive_cylinder_add(radius=r, depth=d, location=loc)]. *)
Definition primitive_cylinder_add (r : Q) (d : root) (loc : Vector)
  : M Scene unit :=
  modify (fun sc => (sc ++ [new_object "Cylinder" (Cylinder r d) loc])%list).

(** [bpy.context.active_object]. *)
Definition active_object : M Scene handle :=
  sc <- get ;; ret (List.length sc - 1)%nat.

Fixpoint update (sc : Scene) (h : handle) (f : Object -> Object) : Scene :=
  match sc, h with
  | [], _ => []
  | o :: sc', O => f o :: sc'
  | o :: sc', S h' => o :: update sc' h' f
  end.

(** [obj.name = n]. *)
Definition set_name (h : handle) (n : string) : M Scene unit :=
  modify (fun sc => update sc h (fun o =>
    {| name := n; data := data o; location := location o;
       materials := materials o; rotation_mode := rotation_mode o;
       rotation_quaternion := rotation_quaternion o |})).

(** [obj.data.materials.append(mat)]. *)
Definition materials_append (h : handle) (mat : Material) : M Scene unit :=
  modify (fun sc => update sc h (fun o =>
    {| name := name o; data := data o; location := location o;
       materials := (materials o ++ [mat])%list; rotation_mode := rotation_mode o;
       rotation_quaternion := rotation_quaternion o |})).

(** [obj.rotation_mode = m]. *)
Definition set_rotation_mode (h : handle) (m : string) : M Scene unit :=
  modify (fun sc => update sc h (fun o =>
    {| name := name o; data := data o; location := location o;
       materials := materials o; rotation_mode := m;
       rotation_quaternion := rotation_quaternion o |})).

(** [obj.rotation_quaternion = q]. *)
Definition set_rotation_quaternion (h : handle) (q : Quaternion)
  : M Scene unit :=
  modify (fun sc => update sc h (fun o =>
    {| name := name o; data := data o; location := location o;
       materials := materials o; rotation_mode := rotation_mode o;
       rotation_quaternion := q |})).

End bpy.

Export bpy.

(** ** The add-on *)

(** *** Helper functions (lines 20-69) *)

Definition create_material (color : Color) : Material :=
  let mat := materials_new "Mat" in
  let mat := set_use_nodes mat true in
  let bsdf := nodes_get mat "Principled BSDF" in
  match bsdf with
  | Some _ => set_default_value mat "Principled BSDF" "Base Color" color
  | None => mat
  end.

Definition add_sphere (location : Vector) (radius : Q) (name : string)
  (color : Color) : M Scene handle :=
  primitive_uv_sphere_add radius location ;;;
  obj <- active_object ;;
  set_name obj name ;;;
  materials_append obj (create_material color) ;;;
  ret obj.

Definition add_cylinder_between (p1 p2 : Vector) (radius : Q) (name : string)
  (color : Color) : M Scene handle :=
  let start := p1 in
  let end_ := p2 in
  let direction := Vector_sub end_ start in
  let length := Vector_length direction in
  let location := Vector_add start (Vector_div direction 2) in
  primitive_cylinder_add radius length location ;;;
  obj <- active_object ;;
  set_name obj name ;;;
  materials_append obj (create_material color) ;;;
  set_rotation_mode obj "QUATERNION" ;;;
  set_rotation_quaternion obj (to_track_quat direction "Z" "Y") ;;;
  ret obj.

Section Addon.

(** Python's [float(s)] on a text. *)
Variable float_of_str : string -> option float.

(** [pd.read_csv(path)] against the files at hand. *)
Variable read_csv : string -> Exception + DataFrame.

(** [str(e)]: the message of an exception. *)
Variable str : Exception -> string.

Definition create_ball_stick_model (df : DataFrame) (x_col y_col : string)
  (spacing ball_radius stick_radius : Q) : M Scene unit :=
  x_obj <- lift (DataFrame_getitem df x_col) ;;
  x_vals <- lift (astype_float float_of_str x_obj) ;;
  y_obj <- lift (DataFrame_getitem df y_col) ;;
  y_vals <- lift (astype_float float_of_str y_obj) ;;
  let x_min := Series_min x_vals in
  let x_max := Series_max x_vals in
  let y_min := Series_min y_vals in
  let y_max := Series_max y_vals in
  let norm_x :=
    if fne x_max x_min
    then Series_div (Series_sub x_vals x_min) (fsub x_max x_min)
    else x_vals in
  let norm_y :=
    if fne y_max y_min
    then Series_div (Series_sub y_vals y_min) (fsub y_max y_min)
    else y_vals in
  points <-
    for_each
      (fun '(i, (x, y)) =>
         let pos := (fmul x (Fin spacing), fmul y (Fin spacing), Fin 0) in
         r <- lift (truediv i (len df)) ;;
         g <- lift (truediv i (len df)) ;;
         let color := (r, 1 - g, 8 # 10, 1) in
         add_sphere pos ball_radius ("Ball_" ++ str_of_nat i) color ;;;
         ret pos)
      (enumerate (zip norm_x norm_y)) ;;
  for_each
    (fun i =>
       p1 <- lift (getitem points i) ;;
       p2 <- lift (getitem points (i + 1)) ;;
       add_cylinder_between p1 p2 stick_radius ("Stick_" ++ str_of_nat i)
         (8 # 10, 8 # 10, 8 # 10, 1))
    (range (Z.of_nat (List.length points) - 1)) ;;;
  ret tt.

(** *** Properties (lines 74-82) *)

Record CSVVisualizerProps : Type := {
  filepath : string;
  x_column : string;
  y_column : string;
  spacing : Q;
  ball_radius : Q;
  stick_radius : Q;
  file_loaded : bool;
  error_message : string
}.

(** The defaults the property group declares. *)
Definition default_props : CSVVisualizerProps :=
  {| filepath := ""; x_column := "x"; y_column := "y";
     spacing := 5; ball_radius := 2 # 10; stick_radius := 5 # 100;
     file_loaded := false; error_message := "" |}.

(** What an operator runs against: the property group bound to the scene,
    the scene's objects, and the reports shown to the user. *)
Record Context : Type := {
  csv_visualizer : CSVVisualizerProps;
  objects : Scene;
  reports : list (string * string)
}.

Inductive OperatorResult : Type :=
| FINISHED
| CANCELLED.

Definition set_filepath (v : string) : M Context unit :=
  modify (fun c =>
    let p := csv_visualizer c in
    {| csv_visualizer :=
         {| filepath := v; x_column := x_column p; y_column := y_column p;
            spacing := spacing p; ball_radius := ball_radius p;
            stick_radius := stick_radius p; file_loaded := file_loaded p;
            error_message := error_message p |};
       objects := objects c; reports := reports c |}).

Definition set_file_loaded (v : bool) : M Context unit :=
  modify (fun c =>
    let p := csv_visualizer c in
    {| csv_visualizer :=
         {| filepath := filepath p; x_column := x_column p;
            y_column := y_column p; spacing := spacing p;
            ball_radius := ball_radius p; stick_radius := stick_radius p;
            file_loaded := v; error_message := error_message p |};
       objects := objects c; reports := reports c |}).

Definition set_error_message (v : string) : M Context unit :=
  modify (fun c =>
    let p := csv_visualizer c in
    {| csv_visualizer :=
         {| filepath := filepath p; x_column := x_column p;
            y_column := y_column p; spacing := spacing p;
            ball_radius := ball_radius p; stick_radius := stick_radius p;
            file_loaded := file_loaded p; error_message := v |};
       objects := objects c; reports := reports c |}).

(** [self.report({level}, msg)]. *)
Definition report (level msg : string) : M Context unit :=
  modify (fun c =>
    {| csv_visualizer := csv_visualizer c; objects := objects c;
       reports := (reports c ++ [(level, msg)])%list |}).

(** A computation on the scene, run on the scene of the context. *)
Definition in_scene {A} (m : M Scene A) : M Context A :=
  fun c =>
    let '(r, sc) := m (objects c) in
    (r, {| csv_visualizer := csv_visualizer c; objects := sc;
           reports := reports c |}).

(** *** Operators (lines 87-130) *)

(** [CSV_OT_LoadFile.execute]; [self_filepath] is the path the file browser
    handed over. *)
Definition CSV_OT_LoadFile_execute (self_filepath : string)
  : M Context OperatorResult :=
  try_except
    (df <- lift (read_csv self_filepath) ;;
     set_filepath self_filepath ;;;
     set_file_loaded true ;;;
     set_error_message "")
    (fun e =>
       set_file_loaded false ;;;
       set_error_message ("Error reading CSV: " ++ str e)) ;;;
  ret FINISHED.

(** [CSV_OT_VisualizeGraph.execute]. *)
Definition CSV_OT_VisualizeGraph_execute : M Context OperatorResult :=
  c <- get ;;
  let props := csv_visualizer c in
  try_except
    (df <- lift (read_csv (filepath props)) ;;
     if negb (has_column df (x_column props))
        || negb (has_column df (y_column props))
     then
       report "ERROR"
         ("Column '" ++ x_column props ++ "' or '" ++ y_column props
          ++ "' not found in CSV.") ;;;
       ret CANCELLED
     else
       in_scene
         (create_ball_stick_model df (x_column props) (y_column props)
            (spacing props) (ball_radius props) (stick_radius props)) ;;;
       report "INFO" "Graph created." ;;;
       ret FINISHED)
    (fun e =>
       report "ERROR" ("Failed to visualize: " ++ str e) ;;;
       ret CANCELLED).

(** *** UI panel (lines 135-158) *)

(** What a panel puts into its layout, in drawing order. *)
Inductive UIItem : Type :=
| UIOperator (idname icon : string)
| UILabel (text icon : string)
| UIProp (property : string).

(** [layout.operator(idname, icon=icon)]. *)
Definition layout_operator (idname icon : string) : M (list UIItem) unit :=
  modify (fun l => (l ++ [UIOperator idname icon])%list).

(** [layout.label(text=text, icon=icon)]. *)
Definition layout_label (text icon : string) : M (list UIItem) unit :=
  modify (fun l => (l ++ [UILabel text icon])%list).

(** [layout.prop(props, property)]. *)
Definition layout_prop (property : string) : M (list UIItem) unit :=
  modify (fun l => (l ++ [UIProp property])%list).

(** The truth value of a text: false for the empty one only. *)
Definition truthy (s : string) : bool := negb (String.eqb s "").

(** [bpy.path.basename(path)]. *)
Variable basename : string -> string.

(** [CSV_PT_VisualizerPanel.draw]. *)
Definition CSV_PT_VisualizerPanel_draw (c : Context) : M (list UIItem) unit :=
  let props := csv_visualizer c in
  layout_operator "csv.load_file" "FILE_FOLDER" ;;;
  if file_loaded props then
    layout_label ("CSV Loaded: " ++ basename (filepath props)) "CHECKMARK" ;;;
    layout_prop "x_column" ;;;
    layout_prop "y_column" ;;;
    layout_prop "spacing" ;;;
    layout_prop "ball_radius" ;;;
    layout_prop "stick_radius" ;;;
    layout_operator "csv.visualize_graph" "GRAPH"
  else
    if truthy (error_message props) then
      layout_label (error_message props) "ERROR"
    else ret tt.

(** *** Registration (lines 163-178) *)

(** The part of Blender the registration acts on: the classes it knows, by
    name, and the property attached to [bpy.types.Scene] under the name
    [csv_visualizer], if any. *)
Record Host : Type := {
  registered_classes : list string;
  Scene_csv_visualizer : option string
}.

(** [bpy.utils.register_class(cls)]: a class registers once. *)
Definition register_class (cls : string) : M Host unit :=
  fun h =>
    if existsb (String.eqb cls) (registered_classes h)
    then (inl (OtherError "ValueError" "already registered as a subclass"), h)
    else (inr tt,
          {| registered_classes := (registered_classes h ++ [cls])%list;
             Scene_csv_visualizer := Scene_csv_visualizer h |}).

(** [bpy.utils.unregister_class(cls)]: only a registered class unregisters. *)
Definition unregister_class (cls : string) : M Host unit :=
  fun h =>
    if existsb (String.eqb cls) (registered_classes h)
    then (inr tt,
          {| registered_classes :=
               filter (fun c => negb (String.eqb cls c)) (registered_classes h);
             Scene_csv_visualizer := Scene_csv_visualizer h |})
    else (inl (OtherError "RuntimeError" "may not be registered"), h).

(** [bpy.types.Scene.csv_visualizer = bpy.props.PointerProperty(type=cls)]. *)
Definition set_Scene_csv_visualizer (cls : string) : M Host unit :=
  modify (fun h =>
    {| registered_classes := registered_classes h;
       Scene_csv_visualizer := Some cls |}).

(** [del bpy.types.Scene.csv_visualizer]. *)
Definition del_Scene_csv_visualizer : M Host unit :=
  fun h =>
    match Scene_csv_visualizer h with
    | Some _ =>
        (inr tt,
         {| registered_classes := registered_classes h;
            Scene_csv_visualizer := None |})
    | None => (inl (OtherError "AttributeError" "csv_visualizer"), h)
    end.

(** The tuple [classes] (lines 163-168). *)
Definition classes : list string :=
  ["CSVVisualizerProps"; "CSV_OT_LoadFile"; "CSV_OT_VisualizeGraph";
   "CSV_PT_VisualizerPanel"].

Definition register : M Host unit :=
  for_each register_class classes ;;;
  set_Scene_csv_visualizer "CSVVisualizerProps".

Definition unregister : M Host unit :=
  for_each unregister_class (rev classes) ;;;
  del_Scene_csv_visualizer.

(** ** Vocabulary of the specification *)

(** [df[c].astype(float)] (lines 52 and 53). *)
Definition column_as_float (df : DataFrame) (c : string)
  : Exception + list float :=
  match DataFrame_getitem df c with
  | inl e => inl e
  | inr s => astype_float float_of_str s
  end.

(** The normalisation of one column (lines 55-59). *)
Definition norm_column (vals : list float) : list float :=
  let lo := Series_min vals in
  let hi := Series_max vals in
  if fne hi lo then Series_div (Series_sub vals lo) (fsub hi lo) else vals.

(** The position of a ball (line 63). *)
Definition position (spacing : Q) (xy : float * float) : Vector :=
  (fmul (fst xy) (Fin spacing), fmul (snd xy) (Fin spacing), Fin 0).

(** The positions of all balls, in row order. *)
Definition layout_points (xs ys : list float) (spacing : Q) : list Vector :=
  map (position spacing) (zip (norm_column xs) (norm_column ys)).

(** [i / n] as a number. *)
Definition ratio (i n : nat) : Q := inject_Z (Z.of_nat i) / inject_Z (Z.of_nat n).

(** The colour of ball [i] among [n] (line 65). *)
Definition ball_color (i n : nat) : Color :=
  (ratio i n, 1 - ratio i n, 8 # 10, 1).

(** The colour of every stick (line 69). *)
Definition stick_color : Color := (8 # 10, 8 # 10, 8 # 10, 1).

(** The object [add_sphere] leaves in the scene. *)
Definition sphere_object (pos : Vector) (r : Q) (n : string) (c : Color)
  : Object :=
  {| name := n; data := UVSphere r; location := pos;
     materials := [create_material c];
     rotation_mode := "XYZ"; rotation_quaternion := Identity |}.

(** The object [add_cylinder_between] leaves in the scene. *)
Definition cylinder_object (p1 p2 : Vector) (r : Q) (n : string) (c : Color)
  : Object :=
  {| name := n;
     data := Cylinder r (Vector_length (Vector_sub p2 p1));
     location := Vector_add p1 (Vector_div (Vector_sub p2 p1) 2);
     materials := [create_material c];
     rotation_mode := "QUATERNION";
     rotation_quaternion := TrackQuat (Vector_sub p2 p1) "Z" "Y" |}.

(** Ball [i] of a frame of [n] rows. *)
Definition ball (r : Q) (n : nat) (ip : nat * Vector) : Object :=
  sphere_object (snd ip) r ("Ball_" ++ str_of_nat (fst ip))
    (ball_color (fst ip) n).

Definition origin : Vector := (Fin 0, Fin 0, Fin 0).

(** Stick [i], between points [i] and [i + 1]. *)
Definition stick (r : Q) (points : list Vector) (i : nat) : Object :=
  cylinder_object (nth i points origin) (nth (i + 1) points origin) r
    ("Stick_" ++ str_of_nat i) stick_color.

(** The balls and the sticks of a layout, in the order they are created. *)
Definition balls (r : Q) (n : nat) (points : list Vector) : list Object :=
  map (ball r n) (enumerate points).

Definition sticks (r : Q) (points : list Vector) : list Object :=
  map (stick r points) (seq 0 (List.length points - 1)).

(** Reading an object back. *)
Definition is_sphere (o : Object) : bool :=
  match data o with UVSphere _ => true | Cylinder _ _ => false end.

Definition is_cylinder (o : Object) : bool :=
  match data o with UVSphere _ => false | Cylinder _ _ => true end.

Definition depth (o : Object) : option root :=
  match data o with UVSphere _ => None | Cylinder _ d => Some d end.

Definition color_of (o : Object) : option Color :=
  match materials o with
  | m :: _ => base_color m
  | [] => None
  end.

Definition red (c : Color) : Q := let '(r, _, _, _) := c in r.
Definition green (c : Color) : Q := let '(_, g, _, _) := c in g.

Definition xcoord (v : Vector) : float := let '(x, _, _) := v in x.
Definition ycoord (v : Vector) : float := let '(_, y, _) := v in y.
Definition zcoord (v : Vector) : float := let '(_, _, z) := v in z.

(** Two vectors denote the same point. *)
Definition Vector_eq (a b : Vector) : Prop :=
  feq (xcoord a) (xcoord b) /\ feq (ycoord a) (ycoord b)
  /\ feq (zcoord a) (zcoord b).

(** [(a + b) / 2], coordinate by coordinate. *)
Definition midpoint (a b : Vector) : Vector :=
  Vector_div (Vector_add a b) 2.

(** A text of the column that [float] rejects. *)
Definition unconvertible (cells : list cell) (s : string) : Prop :=
  In (Text s) cells /\ float_of_str s = None.

(** A numeric column with at least two distinct values. *)
Definition two_distinct (qs : list Q) : Prop :=
  exists a b, In a qs /\ In b qs /\ ~ a == b.

(** [v] is an admissible normalised value for the entry [q] of the column
    [qs]: it lies in [0,1], it is 0 when [q] is the least entry and 1 when
    [q] is the greatest. *)
Definition normalized_entry (qs : list Q) (q : Q) (v : float) : Prop :=
  fbetween 0 1 v
  /\ ((forall r, In r qs -> q <= r) -> feq v (Fin 0))
  /\ ((forall r, In r qs -> r <= q) -> feq v (Fin 1)).

(** A numeric column all of whose entries are [c]. *)
Definition constant_column (c : Q) (qs : list Q) : Prop :=
  Forall (fun q => q == c) qs.

(** [|b - a|], the distance between two points. *)
Definition distance (a b : Vector) : root :=
  let dx := fsub (xcoord b) (xcoord a) in
  let dy := fsub (ycoord b) (ycoord a) in
  let dz := fsub (zcoord b) (zcoord a) in
  Sqrt (fadd (fadd (fmul dx dx) (fmul dy dy)) (fmul dz dz)).

(** The failure names the offending field: [field_of] reads off every
    conversion failure of the layout a selected column that holds a text
    that does not convert. *)
Definition names_offending_field (field_of : Exception -> string) : Prop :=
  forall df x_col y_col xcells ycells sp br sr (sc : Scene),
    DataFrame_getitem df x_col = inr xcells ->
    DataFrame_getitem df y_col = inr ycells ->
    (exists t, unconvertible xcells t) \/ (exists t, unconvertible ycells t) ->
    exists e,
      fst (create_ball_stick_model df x_col y_col sp br sr sc) = inl e
      /\ ((field_of e = x_col /\ exists t, unconvertible xcells t)
          \/ (field_of e = y_col /\ exists t, unconvertible ycells t)).

(** The context [c] with one more report. *)
Definition reported (c : Context) (level msg : string) : Context :=
  {| csv_visualizer := csv_visualizer c; objects := objects c;
     reports := (reports c ++ [(level, msg)])%list |}.

(** The context [c] with its objects replaced. *)
Definition with_objects (c : Context) (sc : Scene) : Context :=
  {| csv_visualizer := csv_visualizer c; objects := sc;
     reports := reports c |}.

(** The context [c] with the two status fields of the property group
    replaced. *)
Definition with_status (c : Context) (loaded : bool) (msg : string)
  : Context :=
  let p := csv_visualizer c in
  {| csv_visualizer :=
       {| filepath := filepath p; x_column := x_column p;
          y_column := y_column p; spacing := spacing p;
          ball_radius := ball_radius p; stick_radius := stick_radius p;
          file_loaded := loaded; error_message := msg |};
     objects := objects c; reports := reports c |}.

(** The message of the column test (line 114). *)
Definition column_message (p : CSVVisualizerProps) : string :=
  "Column '" ++ x_column p ++ "' or '" ++ y_column p ++ "' not found in CSV.".

(** The values a binary64 float can take: [m * 2^e] with a 53-bit [m]. *)
Definition binary64 (q : Q) : Prop :=
  exists m e : Z,
    (Z.abs m < 2 ^ 53)%Z /\ (-1074 <= e <= 971)%Z
    /\ q == inject_Z m * 2 ^ e.

(** The greatest binary64 value. *)
Definition max_binary64 : Q := inject_Z (2 ^ 53 - 1) * 2 ^ 971.

(** The spread of a column stays within the binary64 range, so that
    [x_max - x_min], and with it every [x - x_min], does not overflow. *)
Definition spread_in_range (qs : list Q) : Prop :=
  forall a b, In a qs -> In b qs -> a - b <= max_binary64.

(** A column of binary64 values, none missing, to which the arithmetic of
    lines 55-59 applies without overflow. *)
Definition regular_column (qs : list Q) : Prop :=
  Forall binary64 qs /\ spread_in_range qs.

(** The exact values met while the column [xs], with entries [qs], is
    normalised stay within the binary64 range: the least and greatest
    entries are binary64 values, their difference is positive and no greater
    than the greatest binary64 value, and every [q - x_min] lies between 0
    and that difference. *)
Definition differences_in_range (qs : list Q) (xs : list float) : Prop :=
  exists lo hi,
    Series_min xs = Fin lo /\ Series_max xs = Fin hi
    /\ binary64 lo /\ binary64 hi
    /\ 0 < hi - lo /\ hi - lo <= max_binary64
    /\ forall q, In q qs -> 0 <= q - lo /\ q - lo <= hi - lo.

(** ** Frames used as examples *)

Definition numbers (r : list Q) : list cell := map (fun q => Number (Fin q)) r.

(** The rows (0,0), (10,0), (10,10) under the header x,y. *)
Definition three_rows : DataFrame :=
  {| columns := ["x"; "y"];
     rows := [numbers [0; 0]; numbers [10; 0]; numbers [10; 10]] |}.

(** The single row (3,4). *)
Definition single_row : DataFrame :=
  {| columns := ["x"; "y"]; rows := [numbers [3; 4]] |}.

(** A frame whose y column holds a text that is no number.  The column is
    then a column of texts. *)
Definition bad_row : DataFrame :=
  {| columns := ["x"; "y"];
     rows := [[Number (Fin 1); Text "2"]; [Number (Fin 3); Text "abc"]] |}.

(** A frame whose x column holds the same text. *)
Definition bad_x : DataFrame :=
  {| columns := ["x"; "y"];
     rows := [[Text "1"; Number (Fin 2)]; [Text "abc"; Number (Fin 4)]] |}.

(** A frame without a y column. *)
Definition no_y_column : DataFrame :=
  {| columns := ["x"; "z"]; rows := [numbers [1; 2]; numbers [3; 4]] |}.

(** A frame whose second row has an empty x cell. *)
Definition gap_row : DataFrame :=
  {| columns := ["x"; "y"];
     rows := [numbers [0; 0]; [Number NaN; Number (Fin 5)];
              numbers [10; 10]] |}.

(** ** An environment used as an example *)

(** A [float] that reads the unsigned decimal integers and rejects every
    other text. *)
Definition float_of_digits (s : string) : option float :=
  match NilZero.uint_of_string s with
  | Some u => Some (Fin (inject_Z (Z.of_uint u)))
  | None => None
  end.

(** Three files, and nothing else on the disk. *)
Definition three_files (path : string) : Exception + DataFrame :=
  if String.eqb path "rows.csv" then inr three_rows
  else if String.eqb path "bad.csv" then inr bad_row
  else if String.eqb path "other.csv" then inr no_y_column
  else inl (OtherError "FileNotFoundError" "No such file or directory").

(** Messages, as Python words them for plain texts. *)
Definition message (e : Exception) : string :=
  match e with
  | KeyError k => "'" ++ k ++ "'"
  | ValueError t => "could not convert string to float: '" ++ t ++ "'"
  | ZeroDivisionError => "division by zero"
  | IndexError => "list index out of range"
  | OtherError _ msg => msg
  end.

(** A fresh scene with the default properties, pointed at [path]. *)
Definition context_on (path : string) : Context :=
  {| csv_visualizer :=
       {| filepath := path; x_column := "x"; y_column := "y";
          spacing := 5; ball_radius := 2 # 10; stick_radius := 5 # 100;
          file_loaded := true; error_message := "" |};
     objects := [];
     reports := [] |}.

(** The last component of a path written with slashes. *)
Fixpoint basename_from (acc p : string) : string :=
  match p with
  | EmptyString => acc
  | String ch rest =>
      if Ascii.eqb ch "/" then basename_from "" rest
      else basename_from (acc ++ String ch "") rest
  end.

Definition posix_basename (p : string) : string := basename_from "" p.

(** A Blender in which the add-on is not registered. *)
Definition fresh_host : Host :=
  {| registered_classes := ["OBJECT_OT_select_all"];
     Scene_csv_visualizer := None |}.

(** ** Running the helper functions *)

Lemma update_last (sc : Scene) (o : Object) (f : Object -> Object) :
  update (sc ++ [o])%list (List.length sc) f = (sc ++ [f o])%list.
Proof.
  induction sc as [|o' sc IH]; simpl.
  - reflexivity.
  - now rewrite IH.
Qed.

Lemma last_handle (sc : Scene) (o : Object) :
  (List.length (sc ++ [o])%list - 1 = List.length sc)%nat.
Proof. rewrite length_app; simpl; lia. Qed.

(** [add_sphere] appends one sphere and returns its handle. *)
Lemma add_sphere_run pos r n c (sc : Scene) :
  add_sphere pos r n c sc
  = (inr (List.length sc), (sc ++ [sphere_object pos r n c])%list).
Proof.
  cbv [add_sphere bind primitive_uv_sphere_add active_object
       set_name materials_append modify get ret].
  rewrite last_handle, !update_last.
  reflexivity.
Qed.

(** [add_cylinder_between] appends one cylinder and returns its handle. *)
Lemma add_cylinder_between_run p1 p2 r n c (sc : Scene) :
  add_cylinder_between p1 p2 r n c sc
  = (inr (List.length sc), (sc ++ [cylinder_object p1 p2 r n c])%list).
Proof.
  cbv [add_cylinder_between bind primitive_cylinder_add active_object
       set_name materials_append set_rotation_mode set_rotation_quaternion
       modify get ret].
  rewrite last_handle, !update_last.
  reflexivity.
Qed.

Lemma truediv_ok (i n : nat) :
  (0 < n)%nat -> truediv i n = inr (ratio i n).
Proof. destruct n; [lia | reflexivity]. Qed.

(** The material of an object carries the colour it was created with. *)
Lemma base_color_create_material (c : Color) :
  base_color (create_material c) = Some c.
Proof. reflexivity. Qed.

(** ** Lengths of columns *)

Lemma DataFrame_getitem_length df c s :
  DataFrame_getitem df c = inr s -> List.length s = len df.
Proof.
  unfold DataFrame_getitem, len.
  destruct (index_of c (columns df)); [|discriminate].
  intros [= <-]. apply length_map.
Qed.

Lemma astype_float_length s : forall fs,
  astype_float float_of_str s = inr fs -> List.length fs = List.length s.
Proof.
  induction s as [|c s IH]; simpl; intros fs H.
  - injection H as <-. reflexivity.
  - destruct (to_float float_of_str c); [discriminate|].
    destruct (astype_float float_of_str s); [discriminate|].
    injection H as <-. simpl. now rewrite (IH _ eq_refl).
Qed.

Lemma column_as_float_length df c fs :
  column_as_float df c = inr fs -> List.length fs = len df.
Proof.
  unfold column_as_float.
  destruct (DataFrame_getitem df c) as [|s] eqn:E; [discriminate|].
  intros H. rewrite (astype_float_length _ _ H).
  now apply DataFrame_getitem_length with c.
Qed.

Lemma norm_column_length vals :
  List.length (norm_column vals) = List.length vals.
Proof.
  unfold norm_column, Series_div, Series_sub.
  destruct (fne _ _); [now rewrite !length_map | reflexivity].
Qed.

Lemma layout_points_length xs ys sp :
  List.length xs = List.length ys ->
  List.length (layout_points xs ys sp) = List.length xs.
Proof.
  intros H. unfold layout_points, zip.
  rewrite length_map, length_combine, !norm_column_length. lia.
Qed.

(** ** The two loops *)

Lemma for_each_cons {S A B} (body : A -> M S B) (a : A) (l : list A) (s : S) :
  for_each body (a :: l) s
  = match body a s with
    | (inr b, s') =>
        match for_each body l s' with
        | (inr bs, s'') => (inr (b :: bs), s'')
        | (inl e, s'') => (inl e, s'')
        end
    | (inl e, s') => (inl e, s')
    end.
Proof.
  simpl. unfold bind, ret.
  destruct (body a s) as [[e|b] s']; [reflexivity|].
  destruct (for_each body l s') as [[e|bs] s'']; reflexivity.
Qed.

(** The loop over the rows (lines 62-66), started at row [k]. *)
Lemma balls_loop (n : nat) (sp br : Q) (l : list (float * float)) :
  forall (k : nat) (sc : Scene),
    (k + List.length l <= n)%nat ->
    for_each
      (fun '(i, (x, y)) =>
         let pos := (fmul x (Fin sp), fmul y (Fin sp), Fin 0) in
         r <- lift (truediv i n) ;;
         g <- lift (truediv i n) ;;
         let color := (r, 1 - g, 8 # 10, 1) in
         add_sphere pos br ("Ball_" ++ str_of_nat i) color ;;;
         ret pos)
      (combine (seq k (List.length l)) l) sc
    = (inr (map (position sp) l),
       (sc ++ map (ball br n)
                (combine (seq k (List.length l)) (map (position sp) l)))%list).
Proof.
  induction l as [|[x y] l IH]; intros k sc Hk.
  - simpl. unfold ret. now rewrite app_nil_r.
  - simpl in Hk. simpl.
    cbv [bind lift].
    rewrite truediv_ok by lia.
    rewrite add_sphere_run.
    cbv [ret].
    rewrite (IH (S k)) by lia.
    rewrite <- app_assoc. reflexivity.
Qed.

(** The loop over the adjacent pairs (lines 68-69), started at pair [k]. *)
Lemma sticks_loop (sr : Q) (points : list Vector) (m : nat) :
  forall (k : nat) (sc : Scene),
    (k + m <= List.length points - 1)%nat ->
    exists hs,
      for_each
        (fun i =>
           p1 <- lift (getitem points i) ;;
           p2 <- lift (getitem points (i + 1)) ;;
           add_cylinder_between p1 p2 sr ("Stick_" ++ str_of_nat i)
             (8 # 10, 8 # 10, 8 # 10, 1))
        (seq k m) sc
      = (inr hs, (sc ++ map (stick sr points) (seq k m))%list).
Proof.
  match goal with |- context [for_each ?b _ _] => set (body := b) end.
  induction m as [|m IH]; intros k sc Hk.
  - exists []. simpl. unfold ret. now rewrite app_nil_r.
  - assert (H1 : nth_error points k = Some (nth k points origin))
      by (apply nth_error_nth'; lia).
    assert (H2 : nth_error points (k + 1) = Some (nth (k + 1) points origin))
      by (apply nth_error_nth'; lia).
    destruct (IH (S k) (sc ++ [stick sr points k])%list) as [hs Hhs]; [lia|].
    exists (List.length sc :: hs).
    assert (Hb : body k sc
                 = (inr (List.length sc), (sc ++ [stick sr points k])%list)).
    { subst body. cbv [bind lift getitem]. rewrite H1, H2.
      apply add_cylinder_between_run. }
    change (seq k (S m)) with (k :: seq (S k) m).
    rewrite for_each_cons, Hb, Hhs, <- app_assoc. reflexivity.
Qed.

(** ** Running the layout *)

Lemma bind_lift {S A B} (r : Exception + A) (k : A -> M S B) (s : S) :
  bind (lift r) k s = match r with inl e => (inl e, s) | inr a => k a s end.
Proof. destruct r; reflexivity. Qed.

Lemma bind_run {S A B} (c : M S A) (k : A -> M S B) (s : S) :
  bind c k s
  = match c s with (inr a, s') => k a s' | (inl e, s') => (inl e, s') end.
Proof. reflexivity. Qed.

Lemma range_pred (n : nat) : range (Z.of_nat n - 1) = seq 0 (n - 1).
Proof. unfold range. f_equal. lia. Qed.

(** When both columns convert, the layout succeeds and appends the balls,
    then the sticks. *)
Lemma create_ball_stick_model_run df x_col y_col sp br sr xs ys (sc : Scene) :
  column_as_float df x_col = inr xs ->
  column_as_float df y_col = inr ys ->
  create_ball_stick_model df x_col y_col sp br sr sc
  = (inr tt,
     (sc ++ balls br (len df) (layout_points xs ys sp)
         ++ sticks sr (layout_points xs ys sp))%list).
Proof.
  intros Hx Hy.
  pose proof (column_as_float_length _ _ _ Hx) as Lx.
  pose proof (column_as_float_length _ _ _ Hy) as Ly.
  unfold column_as_float in Hx, Hy.
  unfold create_ball_stick_model.
  destruct (DataFrame_getitem df x_col) as [|xo]; [discriminate|].
  destruct (DataFrame_getitem df y_col) as [|yo]; [discriminate|].
  rewrite bind_lift. cbv beta iota.
  rewrite bind_lift, Hx. cbv beta iota.
  rewrite bind_lift. cbv beta iota.
  rewrite bind_lift, Hy. cbv beta iota zeta.
  fold (norm_column xs). fold (norm_column ys).
  rewrite bind_run. unfold enumerate.
  rewrite balls_loop.
  2:{ unfold zip. rewrite length_combine, !norm_column_length. lia. }
  fold (layout_points xs ys sp).
  replace (List.length (zip (norm_column xs) (norm_column ys)))
    with (List.length (layout_points xs ys sp))
    by (unfold layout_points; apply length_map).
  fold (enumerate (layout_points xs ys sp)).
  fold (balls br (len df) (layout_points xs ys sp)).
  destruct (sticks_loop sr (layout_points xs ys sp)
              (List.length (layout_points xs ys sp) - 1) 0
              (sc ++ balls br (len df) (layout_points xs ys sp))%list)
    as [hs Hhs]; [lia|].
  rewrite bind_run, range_pred.
  match goal with
  | |- context [for_each ?b ?l ?s] =>
      let H := fresh in
      assert (H : for_each b l s = _) by exact Hhs; rewrite H
  end.
  unfold ret. fold (sticks sr (layout_points xs ys sp)).
  now rewrite <- app_assoc.
Qed.

(** A failure of the x column is raised before anything is created. *)
Lemma create_ball_stick_model_x_fails df x_col y_col sp br sr e (sc : Scene) :
  column_as_float df x_col = inl e ->
  create_ball_stick_model df x_col y_col sp br sr sc = (inl e, sc).
Proof.
  unfold column_as_float, create_ball_stick_model. intros Hx.
  rewrite bind_lift.
  destruct (DataFrame_getitem df x_col) as [e'|xo].
  - now injection Hx as ->.
  - rewrite bind_lift, Hx. reflexivity.
Qed.

(** So is a failure of the y column. *)
Lemma create_ball_stick_model_y_fails df x_col y_col sp br sr xs e
  (sc : Scene) :
  column_as_float df x_col = inr xs ->
  column_as_float df y_col = inl e ->
  create_ball_stick_model df x_col y_col sp br sr sc = (inl e, sc).
Proof.
  unfold column_as_float, create_ball_stick_model. intros Hx Hy.
  destruct (DataFrame_getitem df x_col) as [|xo]; [discriminate|].
  rewrite bind_lift. cbv beta iota.
  rewrite bind_lift, Hx. cbv beta iota.
  rewrite bind_lift.
  destruct (DataFrame_getitem df y_col) as [e'|yo].
  - now injection Hy as ->.
  - rewrite bind_lift, Hy. reflexivity.
Qed.

(** ** Minimum and maximum of a numeric column *)

Lemma dropna_Fin (qs : list Q) : dropna (map Fin qs) = qs.
Proof. induction qs as [|q qs IH]; simpl; [|rewrite IH]; reflexivity. Qed.

Lemma fold_min_lower (l : list Q) : forall a,
  fold_left Qmin l a <= a /\ (forall x, In x l -> fold_left Qmin l a <= x).
Proof.
  induction l as [|y l IH]; intros a; simpl.
  - split; [apply Qle_refl | intros x []].
  - destruct (IH (Qmin a y)) as [H1 H2]. split.
    + eapply Qle_trans; [exact H1 | apply Q.le_min_l].
    + intros x [<- | Hx].
      * eapply Qle_trans; [exact H1 | apply Q.le_min_r].
      * now apply H2.
Qed.

Lemma fold_min_attained (l : list Q) : forall a,
  exists x, In x (a :: l) /\ fold_left Qmin l a == x.
Proof.
  induction l as [|y l IH]; intros a; simpl.
  - exists a. split; [now left | reflexivity].
  - destruct (IH (Qmin a y)) as [x [[<- | Hx] E]].
    + destruct (Q.min_dec a y) as [E' | E'].
      * exists a. split; [now left | now rewrite E].
      * exists y. split; [right; now left | now rewrite E].
    + exists x. split; [right; now right | exact E].
Qed.

Lemma fold_max_upper (l : list Q) : forall a,
  a <= fold_left Qmax l a /\ (forall x, In x l -> x <= fold_left Qmax l a).
Proof.
  induction l as [|y l IH]; intros a; simpl.
  - split; [apply Qle_refl | intros x []].
  - destruct (IH (Qmax a y)) as [H1 H2]. split.
    + eapply Qle_trans; [apply Q.le_max_l | exact H1].
    + intros x [<- | Hx].
      * eapply Qle_trans; [apply Q.le_max_r | exact H1].
      * now apply H2.
Qed.

Lemma fold_max_attained (l : list Q) : forall a,
  exists x, In x (a :: l) /\ fold_left Qmax l a == x.
Proof.
  induction l as [|y l IH]; intros a; simpl.
  - exists a. split; [now left | reflexivity].
  - destruct (IH (Qmax a y)) as [x [[<- | Hx] E]].
    + destruct (Q.max_dec a y) as [E' | E'].
      * exists a. split; [now left | now rewrite E].
      * exists y. split; [right; now left | now rewrite E].
    + exists x. split; [right; now right | exact E].
Qed.

(** A non-empty numeric column has a least entry, and [min] returns it. *)
Lemma Series_min_Fin (qs : list Q) :
  qs <> [] ->
  exists lo, Series_min (map Fin qs) = Fin lo
             /\ (forall q, In q qs -> lo <= q)
             /\ (exists q, In q qs /\ lo == q).
Proof.
  intros Hne. unfold Series_min. rewrite dropna_Fin.
  destruct qs as [|a l]; [contradiction|].
  exists (fold_left Qmin l a). split; [reflexivity|].
  destruct (fold_min_lower l a) as [H1 H2]. split.
  - intros q [<- | Hq]; [exact H1 | now apply H2].
  - apply fold_min_attained.
Qed.

Lemma Series_max_Fin (qs : list Q) :
  qs <> [] ->
  exists hi, Series_max (map Fin qs) = Fin hi
             /\ (forall q, In q qs -> q <= hi)
             /\ (exists q, In q qs /\ hi == q).
Proof.
  intros Hne. unfold Series_max. rewrite dropna_Fin.
  destruct qs as [|a l]; [contradiction|].
  exists (fold_left Qmax l a). split; [reflexivity|].
  destruct (fold_max_upper l a) as [H1 H2]. split.
  - intros q [<- | Hq]; [exact H1 | now apply H2].
  - apply fold_max_attained.
Qed.

(** ** Normalisation of a column with two distinct values *)

Lemma two_distinct_nonempty qs : two_distinct qs -> qs <> [].
Proof. intros (a & b & Ha & _) ->. destruct Ha. Qed.

(** The column is scaled by its least and greatest entries, which differ. *)
Lemma norm_column_scaled (qs : list Q) :
  two_distinct qs ->
  exists lo hi,
    lo < hi
    /\ (forall q, In q qs -> lo <= q <= hi)
    /\ (exists q, In q qs /\ lo == q)
    /\ (exists q, In q qs /\ hi == q)
    /\ norm_column (map Fin qs)
       = map (fun q => Fin ((q - lo) / (hi - lo))) qs.
Proof.
  intros H2. pose proof (two_distinct_nonempty _ H2) as Hne.
  destruct (Series_min_Fin qs Hne) as (lo & Elo & Llo & Alo).
  destruct (Series_max_Fin qs Hne) as (hi & Ehi & Lhi & Ahi).
  exists lo, hi.
  assert (Hlt : lo < hi).
  { destruct H2 as (a & b & Ha & Hb & Hab).
    pose proof (Llo a Ha). pose proof (Llo b Hb).
    pose proof (Lhi a Ha). pose proof (Lhi b Hb).
    destruct (Qlt_le_dec lo hi) as [|Hle]; [assumption|].
    exfalso. apply Hab. lra. }
  repeat split; try assumption; try (now apply Llo); try (now apply Lhi).
  unfold norm_column. rewrite Elo, Ehi. simpl fne.
  destruct (Qeq_bool hi lo) eqn:E.
  { apply Qeq_bool_iff in E. lra. }
  simpl. unfold Series_div, Series_sub. rewrite !map_map.
  apply map_ext. intros q. simpl.
  destruct (Qeq_bool (hi - lo) 0) eqn:E0; [|reflexivity].
  apply Qeq_bool_iff in E0. lra.
Qed.

Lemma unit_interval (lo hi q : Q) :
  lo < hi -> lo <= q <= hi -> 0 <= (q - lo) / (hi - lo) <= 1.
Proof.
  intros Hlt [H1 H2]. split.
  - apply Qle_shift_div_l; lra.
  - apply Qle_shift_div_r; lra.
Qed.

Lemma Forall2_map_r {A B} (P : A -> B -> Prop) (f : A -> B) (l : list A) :
  (forall a, In a l -> P a (f a)) -> Forall2 P l (map f l).
Proof.
  induction l as [|a l IH]; simpl; intros H; constructor.
  - apply H. now left.
  - apply IH. intros b Hb. apply H. now right.
Qed.

(** Entry by entry: in [0,1], 0 at the least entry, 1 at the greatest. *)
Lemma norm_column_entries (qs : list Q) :
  two_distinct qs ->
  Forall2 (normalized_entry qs) qs (norm_column (map Fin qs)).
Proof.
  intros H2.
  destruct (norm_column_scaled qs H2)
    as (lo & hi & Hlt & Hb & (ql & Hql & El) & (qh & Hqh & Eh) & ->).
  apply Forall2_map_r. intros q Hq.
  pose proof (Hb q Hq) as Hbq.
  repeat split; simpl.
  - now apply unit_interval.
  - now apply unit_interval.
  - intros Hleast. pose proof (Hleast ql Hql).
    assert (E : q == lo) by lra.
    rewrite E. unfold Qminus at 1. rewrite Qplus_opp_r.
    unfold Qdiv. apply Qmult_0_l.
  - intros Hgreatest. pose proof (Hgreatest qh Hqh).
    assert (E : q == hi) by lra.
    rewrite E. apply Qmult_inv_r. lra.
Qed.

(** The normalised values lie in [0,1]. *)
Lemma norm_column_between (qs : list Q) (v : float) :
  two_distinct qs -> In v (norm_column (map Fin qs)) -> fbetween 0 1 v.
Proof.
  intros H2 Hv.
  destruct (norm_column_scaled qs H2)
    as (lo & hi & Hlt & Hb & _ & _ & E).
  rewrite E in Hv. apply in_map_iff in Hv. destruct Hv as (q & <- & Hq).
  simpl. apply unit_interval; auto.
Qed.

(** Scaling a value of [0,1] by a non-negative spacing. *)
Lemma fmul_between (v : float) (sp : Q) :
  0 <= sp -> fbetween 0 1 v -> fbetween 0 sp (fmul v (Fin sp)).
Proof.
  destruct v as [q|]; simpl; [|tauto].
  intros Hsp [H0 H1]. split.
  - now apply Qmult_le_0_compat.
  - setoid_replace sp with (1 * sp) at 2 by ring.
    now apply Qmult_le_compat_r.
Qed.

(** ** Where the balls are *)

Lemma In_balls_location br n points o :
  In o (balls br n points) -> In (location o) points.
Proof.
  unfold balls, enumerate. intros H. apply in_map_iff in H.
  destruct H as ([i p] & <- & Hip). simpl.
  now apply in_combine_r in Hip.
Qed.

Lemma In_layout_points xs ys sp p :
  In p (layout_points xs ys sp) ->
  exists x y, In x (norm_column xs) /\ In y (norm_column ys)
              /\ p = (fmul x (Fin sp), fmul y (Fin sp), Fin 0).
Proof.
  unfold layout_points, zip. intros H. apply in_map_iff in H.
  destruct H as ([x y] & <- & Hxy). exists x, y.
  split; [now apply in_combine_l in Hxy|].
  split; [now apply in_combine_r in Hxy | reflexivity].
Qed.

(** ** Balls and sticks by index *)

Lemma nth_error_enumerate {A} (l : list A) (d : A) : forall (k i : nat),
  (i < List.length l)%nat ->
  nth_error (combine (seq k (List.length l)) l) i = Some ((k + i)%nat, nth i l d).
Proof.
  induction l as [|a l IH]; simpl; intros k i Hi; [lia|].
  destruct i as [|i]; simpl.
  - now rewrite Nat.add_0_r.
  - rewrite (IH (S k) i) by lia. do 2 f_equal. lia.
Qed.

Lemma nth_error_balls br n points i :
  (i < List.length points)%nat ->
  nth_error (balls br n points) i = Some (ball br n (i, nth i points origin)).
Proof.
  intros Hi. unfold balls, enumerate.
  apply map_nth_error.
  now rewrite (nth_error_enumerate points origin 0 i Hi).
Qed.

Lemma nth_error_sticks sr points i :
  (i + 1 < List.length points)%nat ->
  nth_error (sticks sr points) i = Some (stick sr points i).
Proof.
  intros Hi. unfold sticks.
  apply map_nth_error. rewrite nth_error_seq.
  destruct (Nat.ltb_spec i (List.length points - 1)); [reflexivity | lia].
Qed.

Lemma balls_length br n points :
  List.length (balls br n points) = List.length points.
Proof.
  unfold balls, enumerate.
  rewrite length_map, length_combine, length_seq. lia.
Qed.

Lemma sticks_length sr points :
  List.length (sticks sr points) = (List.length points - 1)%nat.
Proof. unfold sticks. now rewrite length_map, length_seq. Qed.

Lemma balls_are_spheres br n points :
  Forall (fun o => is_sphere o = true) (balls br n points).
Proof. apply Forall_forall. intros o H. apply in_map_iff in H.
  now destruct H as (ip & <- & _). Qed.

Lemma sticks_are_cylinders sr points :
  Forall (fun o => is_cylinder o = true) (sticks sr points).
Proof. apply Forall_forall. intros o H. apply in_map_iff in H.
  now destruct H as (ip & <- & _). Qed.

(** Point [i] is built from row [i] of the two normalised columns. *)
Lemma point_nth xs ys sp i :
  List.length xs = List.length ys ->
  (i < List.length xs)%nat ->
  nth i (layout_points xs ys sp) origin
  = position sp (nth i (norm_column xs) NaN, nth i (norm_column ys) NaN).
Proof.
  intros Hl Hi. unfold layout_points, zip.
  rewrite (nth_indep _ origin (position sp (NaN, NaN))).
  - rewrite map_nth. f_equal. apply combine_nth.
    now rewrite !norm_column_length.
  - rewrite length_map, length_combine, !norm_column_length. lia.
Qed.

(** ** Midpoints *)

(** [a + (b - a) / 2] is [(a + b) / 2]. *)
Lemma fmid (a b : float) :
  feq (fadd a (fdiv (fsub b a) (Fin 2))) (fdiv (fadd a b) (Fin 2)).
Proof.
  destruct a as [x|], b as [y|]; simpl; trivial.
  field.
Qed.

(** ** The colour gradient *)

Lemma ratio_le (i j n : nat) :
  (i <= j)%nat -> ratio i n <= ratio j n.
Proof.
  intros Hij. unfold ratio, Qdiv.
  apply Qmult_le_compat_r.
  - rewrite <- Zle_Qle. lia.
  - apply Qinv_le_0_compat. change 0 with (inject_Z 0).
    rewrite <- Zle_Qle. lia.
Qed.

Lemma ratio_bounds (i n : nat) :
  (i < n)%nat -> 0 <= ratio i n /\ ratio i n < 1.
Proof.
  intros Hi. unfold ratio.
  assert (Hn : 0 < inject_Z (Z.of_nat n)).
  { change 0 with (inject_Z 0). rewrite <- Zlt_Qlt. lia. }
  split.
  - apply Qle_shift_div_l; [exact Hn|].
    rewrite Qmult_0_l. change 0 with (inject_Z 0).
    rewrite <- Zle_Qle. lia.
  - apply Qlt_shift_div_r; [exact Hn|].
    rewrite Qmult_1_l. rewrite <- Zlt_Qlt. lia.
Qed.

Lemma color_of_ball br n ip :
  color_of (ball br n ip) = Some (ball_color (fst ip) n).
Proof. reflexivity. Qed.

(** Every ball of a layout carries the colour of an index below [n]. *)
Lemma In_balls_color br n points o :
  (List.length points <= n)%nat ->
  In o (balls br n points) ->
  exists i, (i < n)%nat /\ color_of o = Some (ball_color i n)
            /\ is_sphere o = true.
Proof.
  intros Hn Ho. apply In_nth_error in Ho. destruct Ho as [i Hi].
  assert (Hlt : (i < List.length points)%nat).
  { rewrite <- (balls_length br n). apply nth_error_Some. congruence. }
  rewrite nth_error_balls in Hi by exact Hlt.
  injection Hi as <-. exists i. repeat split. lia.
Qed.

(** ** The layout on every frame *)

Lemma astype_float_error s e :
  astype_float float_of_str s = inl e ->
  exists t, e = ValueError t /\ unconvertible s t.
Proof.
  induction s as [|c s IH]; simpl; [discriminate|].
  destruct c as [f|t]; simpl.
  - destruct (astype_float float_of_str s) as [e'|fs]; [|discriminate].
    intros [= <-]. destruct (IH eq_refl) as (t & -> & Hin & Hnone).
    exists t. repeat split; [now right | assumption].
  - destruct (float_of_str t) as [f|] eqn:Et.
    + destruct (astype_float float_of_str s) as [e'|fs]; [|discriminate].
      intros [= <-]. destruct (IH eq_refl) as (u & -> & Hin & Hnone).
      exists u. repeat split; [now right | assumption].
    + intros [= <-]. exists t. repeat split; [now left | assumption].
Qed.

Lemma column_as_float_error df c e :
  column_as_float df c = inl e ->
  e = KeyError c \/ exists t, e = ValueError t.
Proof.
  unfold column_as_float, DataFrame_getitem.
  destruct (index_of c (columns df)).
  - intros H. right. apply astype_float_error in H.
    destruct H as (t & -> & _). now exists t.
  - intros [= <-]. now left.
Qed.

(** The layout either fails on a column before it creates anything, or
    succeeds and appends the balls and the sticks. *)
Lemma create_ball_stick_model_cases df x_col y_col sp br sr (sc : Scene) :
  (exists e,
      create_ball_stick_model df x_col y_col sp br sr sc = (inl e, sc)
      /\ ((exists c, e = KeyError c) \/ exists t, e = ValueError t))
  \/ (exists xs ys,
        column_as_float df x_col = inr xs
        /\ column_as_float df y_col = inr ys
        /\ create_ball_stick_model df x_col y_col sp br sr sc
           = (inr tt,
              (sc ++ balls br (len df) (layout_points xs ys sp)
                  ++ sticks sr (layout_points xs ys sp))%list)).
Proof.
  destruct (column_as_float df x_col) as [e|xs] eqn:Hx.
  { left. exists e. split; [now apply create_ball_stick_model_x_fails|].
    destruct (column_as_float_error _ _ _ Hx) as [-> | H]; eauto. }
  destruct (column_as_float df y_col) as [e|ys] eqn:Hy.
  { left. exists e. split; [now apply create_ball_stick_model_y_fails with xs|].
    destruct (column_as_float_error _ _ _ Hy) as [-> | H]; eauto. }
  right. exists xs, ys. repeat split.
  now apply create_ball_stick_model_run.
Qed.

(** ** A constant column *)

Lemma norm_column_constant (c : Q) (qs : list Q) :
  constant_column c qs -> norm_column (map Fin qs) = map Fin qs.
Proof.
  intros Hc. destruct qs as [|a l] eqn:Eqs; [reflexivity|].
  rewrite <- Eqs in *. assert (Hne : qs <> []) by (subst; discriminate).
  destruct (Series_min_Fin qs Hne) as (lo & Elo & _ & (ql & Hql & El)).
  destruct (Series_max_Fin qs Hne) as (hi & Ehi & _ & (qh & Hqh & Eh)).
  unfold constant_column in Hc. rewrite Forall_forall in Hc.
  pose proof (Hc ql Hql). pose proof (Hc qh Hqh).
  unfold norm_column. rewrite Elo, Ehi. simpl fne.
  assert (E : Qeq_bool hi lo = true) by (apply Qeq_bool_iff; lra).
  now rewrite E.
Qed.

(** ** Conversion failures *)

Lemma astype_float_ok s fs t :
  astype_float float_of_str s = inr fs -> ~ unconvertible s t.
Proof.
  revert fs. induction s as [|c s IH]; simpl; intros fs H [Hin Hnone].
  - destruct Hin.
  - destruct (to_float float_of_str c) as [|f] eqn:Ec; [discriminate|].
    destruct (astype_float float_of_str s) as [|fs']; [discriminate|].
    destruct Hin as [-> | Hin].
    + simpl in Ec. now rewrite Hnone in Ec.
    + apply (IH fs' eq_refl). now split.
Qed.

(** A column with a text that is no number fails to convert, with the
    [ValueError] of such a text. *)
Lemma astype_float_fails s :
  (exists t, unconvertible s t) ->
  exists t, astype_float float_of_str s = inl (ValueError t)
            /\ unconvertible s t.
Proof.
  intros [t Ht].
  destruct (astype_float float_of_str s) as [e|fs] eqn:E.
  - destruct (astype_float_error _ _ E) as (u & -> & Hu). now exists u.
  - exfalso. now apply (astype_float_ok _ _ t E).
Qed.

Lemma astype_float_total s :
  (exists fs, astype_float float_of_str s = inr fs)
  \/ exists t, astype_float float_of_str s = inl (ValueError t)
               /\ unconvertible s t.
Proof.
  destruct (astype_float float_of_str s) as [e|fs] eqn:E.
  - right. destruct (astype_float_error _ _ E) as (u & -> & Hu). now exists u.
  - left. now exists fs.
Qed.

(** ** The column test of the operator *)

Lemma has_column_index df c :
  has_column df c = true <-> index_of c (columns df) <> None.
Proof.
  unfold has_column. induction (columns df) as [|c' cols IH]; simpl.
  - split; [discriminate | congruence].
  - destruct (String.eqb c c'); simpl.
    + split; [discriminate | reflexivity].
    + rewrite IH. destruct (index_of c cols); split; congruence.
Qed.

Lemma has_column_getitem df c s :
  DataFrame_getitem df c = inr s -> has_column df c = true.
Proof.
  unfold DataFrame_getitem. intros H. apply has_column_index.
  destruct (index_of c (columns df)); [discriminate | discriminate].
Qed.

(** ** Running the operators *)

(** The visualize operator once the file is read and both columns are
    there: it reports what the layout ended with. *)
Lemma visualize_run (c : Context) (df : DataFrame) :
  let props := csv_visualizer c in
  read_csv (filepath props) = inr df ->
  has_column df (x_column props) = true ->
  has_column df (y_column props) = true ->
  CSV_OT_VisualizeGraph_execute c
  = match create_ball_stick_model df (x_column props) (y_column props)
            (spacing props) (ball_radius props) (stick_radius props)
            (objects c) with
    | (inr _, sc') =>
        (inr FINISHED,
         {| csv_visualizer := props; objects := sc';
            reports := (reports c ++ [("INFO", "Graph created.")])%list |})
    | (inl e, sc') =>
        (inr CANCELLED,
         {| csv_visualizer := props; objects := sc';
            reports :=
              (reports c
               ++ [("ERROR", ("Failed to visualize: " ++ str e)%string)])%list |})
    end.
Proof.
  intros props Hr Hx Hy.
  cbv [CSV_OT_VisualizeGraph_execute bind get try_except lift].
  fold props. rewrite Hr, Hx, Hy. cbv [negb orb in_scene].
  destruct (create_ball_stick_model _ _ _ _ _ _ _) as [[e|[]] sc'];
    reflexivity.
Qed.

(** ** Empty cells *)

(** An empty cell is NaN: [min] and [max] skip it and it stays NaN in the
    normalised column. *)
Example norm_column_with_empty_cell :
  Forall2 feq (norm_column [Fin 0; Fin 10; NaN]) [Fin 0; Fin 1; NaN].
Proof. repeat constructor. Qed.

(** ** No division by zero in the normalisation *)

(** Where a column is scaled, the divisor [max - min] is not zero: the
    zero-divisor case of [fdiv] is never reached by the add-on. *)
Lemma denominator_not_zero (vals : list float) :
  fne (Series_max vals) (Series_min vals) = true ->
  ~ feq (fsub (Series_max vals) (Series_min vals)) (Fin 0).
Proof.
  destruct (Series_max vals) as [hi|], (Series_min vals) as [lo|]; simpl;
    try tauto.
  intros Hne Heq.
  apply negb_true_iff in Hne. apply Qeq_bool_neq in Hne.
  apply Hne. lra.
Qed.

(** ** The three-row scenario: both sticks have length 5 *)

Example three_rows_sticks_have_length_5 (sr : Q) :
  Forall (fun o => exists d, depth o = Some d /\ root_is d 5)
    (sticks sr
       (layout_points [Fin 0; Fin 10; Fin 10] [Fin 0; Fin 0; Fin 10] 5)).
Proof.
  repeat constructor; eexists; (split; [reflexivity|]);
    (split; [unfold Qle; simpl; lia | reflexivity]).
Qed.

(** ** Columns within the binary64 range *)

Lemma binary64_Qeq (q r : Q) : q == r -> binary64 q -> binary64 r.
Proof.
  intros E (m & e & Hm & He & Hq). exists m, e.
  split; [exact Hm|]. split; [exact He|]. now rewrite <- E.
Qed.

(** For a regular column with two distinct values no difference taken by the
    normalisation leaves the binary64 range. *)
Lemma regular_column_differences (qs : list Q) :
  regular_column qs -> two_distinct qs ->
  differences_in_range qs (map Fin qs).
Proof.
  intros [Hb Hs] H2. pose proof (two_distinct_nonempty _ H2) as Hne.
  destruct (Series_min_Fin qs Hne) as (lo & Elo & Llo & (ql & Hql & El)).
  destruct (Series_max_Fin qs Hne) as (hi & Ehi & Lhi & (qh & Hqh & Eh)).
  rewrite Forall_forall in Hb.
  exists lo, hi. split; [exact Elo|]. split; [exact Ehi|].
  split; [apply binary64_Qeq with ql; [now symmetry | now apply Hb]|].
  split; [apply binary64_Qeq with qh; [now symmetry | now apply Hb]|].
  assert (Hlt : lo < hi).
  { destruct H2 as (a & b & Ha & Hb' & Hab).
    pose proof (Llo a Ha). pose proof (Llo b Hb').
    pose proof (Lhi a Ha). pose proof (Lhi b Hb').
    destruct (Qlt_le_dec lo hi) as [|Hle]; [assumption|].
    exfalso. apply Hab. lra. }
  split; [lra|].
  split.
  - pose proof (Hs qh ql Hqh Hql). lra.
  - intros q Hq. pose proof (Llo q Hq). pose proof (Lhi q Hq). split; lra.
Qed.

(** ** The claims *)

(** C1 (amended).  Min-max normalisation.  For a frame whose columns
    convert and a finite spacing that is not negative, the layout succeeds
    and every ball lies in the plane z = 0.  If the x column has no empty
    cell, holds binary64 values whose spread x_max - x_min does not overflow,
    and has at least two distinct values, then no difference taken while
    normalising leaves the binary64 range, its normalised values lie in
    [0,1], the least raw value maps to 0 and the greatest to 1, and every
    ball has its x coordinate in [0, spacing]; the same holds of the y
    column.  In particular the rows (0,0), (10,0), (10,10) with spacing 5 put
    the balls at (0,0,0), (5,0,0) and (5,5,0). *)
Theorem C1_min_max_normalisation_of_regular_columns :
  (forall df x_col y_col sp br sr xs ys (sc : Scene),
      column_as_float df x_col = inr xs ->
      column_as_float df y_col = inr ys ->
      0 <= sp ->
      binary64 sp ->
      let placed := balls br (len df) (layout_points xs ys sp) in
      create_ball_stick_model df x_col y_col sp br sr sc
      = (inr tt, (sc ++ placed ++ sticks sr (layout_points xs ys sp))%list)
      /\ (forall o, In o placed -> zcoord (location o) = Fin 0)
      /\ (forall qs,
            xs = map Fin qs -> regular_column qs -> two_distinct qs ->
            differences_in_range qs xs
            /\ Forall2 (normalized_entry qs) qs (norm_column xs)
            /\ forall o, In o placed -> fbetween 0 sp (xcoord (location o)))
      /\ (forall qs,
            ys = map Fin qs -> regular_column qs -> two_distinct qs ->
            differences_in_range qs ys
            /\ Forall2 (normalized_entry qs) qs (norm_column ys)
            /\ forall o, In o placed -> fbetween 0 sp (ycoord (location o))))
  /\ (forall br sr (sc : Scene),
        let points :=
          layout_points [Fin 0; Fin 10; Fin 10] [Fin 0; Fin 0; Fin 10] 5 in
        create_ball_stick_model three_rows "x" "y" 5 br sr sc
        = (inr tt, (sc ++ balls br 3 points ++ sticks sr points)%list)
        /\ Forall2 Vector_eq (map location (balls br 3 points))
             [(Fin 0, Fin 0, Fin 0); (Fin 5, Fin 0, Fin 0);
              (Fin 5, Fin 5, Fin 0)]).
Proof.
  split.
  - intros df x_col y_col sp br sr xs ys sc Hx Hy Hsp _ placed.
    split; [now apply create_ball_stick_model_run|].
    split.
    { intros o Ho. apply In_balls_location, In_layout_points in Ho.
      destruct Ho as (x & y & _ & _ & ->). reflexivity. }
    split.
    + intros qs -> Hr H2. split; [now apply regular_column_differences|].
      split; [now apply norm_column_entries|].
      intros o Ho. apply In_balls_location, In_layout_points in Ho.
      destruct Ho as (x & y & Hx' & _ & ->). simpl.
      apply fmul_between; [assumption|].
      now apply norm_column_between with qs.
    + intros qs -> Hr H2. split; [now apply regular_column_differences|].
      split; [now apply norm_column_entries|].
      intros o Ho. apply In_balls_location, In_layout_points in Ho.
      destruct Ho as (x & y & _ & Hy' & ->). simpl.
      apply fmul_between; [assumption|].
      now apply norm_column_between with qs.
  - intros br sr sc points. split.
    + now apply create_ball_stick_model_run.
    + repeat constructor.
Qed.

(** C2.  One ball per row, one stick per adjacent pair, in row order.  For a
    frame whose columns convert, the layout appends [len df] spheres followed
    by [max(0, len df - 1)] cylinders and nothing else; the i-th sphere is
    "Ball_i", placed from row i; the i-th cylinder is "Stick_i", spanned
    between the i-th and the (i+1)-th sphere. *)
Theorem C2_one_ball_per_row_one_stick_per_pair
  df x_col y_col sp br sr xs ys (sc : Scene) :
  column_as_float df x_col = inr xs ->
  column_as_float df y_col = inr ys ->
  exists placements connectors,
    create_ball_stick_model df x_col y_col sp br sr sc
    = (inr tt, (sc ++ placements ++ connectors)%list)
    /\ Forall (fun o => is_sphere o = true) placements
    /\ Forall (fun o => is_cylinder o = true) connectors
    /\ List.length placements = len df
    /\ Z.of_nat (List.length connectors) = Z.max 0 (Z.of_nat (len df) - 1)
    /\ (forall i, (i < len df)%nat ->
          exists o,
            nth_error placements i = Some o
            /\ name o = "Ball_" ++ str_of_nat i
            /\ location o
               = position sp (nth i (norm_column xs) NaN,
                              nth i (norm_column ys) NaN))
    /\ (forall i, (i + 1 < len df)%nat ->
          exists a b,
            nth_error placements i = Some a
            /\ nth_error placements (i + 1) = Some b
            /\ nth_error connectors i
               = Some (cylinder_object (location a) (location b) sr
                         ("Stick_" ++ str_of_nat i) stick_color)).
Proof.
  intros Hx Hy.
  pose proof (column_as_float_length _ _ _ Hx) as Lx.
  pose proof (column_as_float_length _ _ _ Hy) as Ly.
  assert (Lp : List.length (layout_points xs ys sp) = len df)
    by (rewrite layout_points_length; congruence).
  exists (balls br (len df) (layout_points xs ys sp)),
         (sticks sr (layout_points xs ys sp)).
  split; [now apply create_ball_stick_model_run|].
  split; [apply balls_are_spheres|].
  split; [apply sticks_are_cylinders|].
  split; [now rewrite balls_length|].
  split; [rewrite sticks_length, Lp; lia|].
  split.
  - intros i Hi. eexists. split; [apply nth_error_balls; lia|].
    split; [reflexivity|]. simpl.
    apply point_nth; congruence.
  - intros i Hi. do 2 eexists.
    split; [apply nth_error_balls; lia|].
    split; [apply nth_error_balls; lia|].
    rewrite nth_error_sticks by lia. reflexivity.
Qed.

(** C3.  The stick between two adjacent balls.  For a frame whose columns
    convert, the layout appends spheres, then cylinders, and for every
    adjacent pair (i, i+1) of rows the i-th cylinder is centred at the midpoint of the two balls, its depth is their distance,
    its rotation is the one that turns its local Z axis onto the vector from
    ball i to ball i+1, and its colour is (0.8, 0.8, 0.8, 1) whatever i. *)
Theorem C3_stick_between_adjacent_balls
  df x_col y_col sp br sr xs ys (sc : Scene) :
  column_as_float df x_col = inr xs ->
  column_as_float df y_col = inr ys ->
  exists placements connectors,
    create_ball_stick_model df x_col y_col sp br sr sc
    = (inr tt, (sc ++ placements ++ connectors)%list)
    /\ Forall (fun o => is_sphere o = true) placements
    /\ Forall (fun o => is_cylinder o = true) connectors
    /\ forall i, (i + 1 < len df)%nat ->
         exists a b c,
           nth_error placements i = Some a
           /\ nth_error placements (i + 1) = Some b
           /\ nth_error connectors i = Some c
           /\ Vector_eq (location c) (midpoint (location a) (location b))
           /\ depth c = Some (distance (location a) (location b))
           /\ rotation_mode c = "QUATERNION"
           /\ rotation_quaternion c
              = TrackQuat (Vector_sub (location b) (location a)) "Z" "Y"
           /\ color_of c = Some (8 # 10, 8 # 10, 8 # 10, 1).
Proof.
  intros Hx Hy.
  pose proof (column_as_float_length _ _ _ Hx) as Lx.
  pose proof (column_as_float_length _ _ _ Hy) as Ly.
  assert (Lp : List.length (layout_points xs ys sp) = len df)
    by (rewrite layout_points_length; congruence).
  exists (balls br (len df) (layout_points xs ys sp)),
         (sticks sr (layout_points xs ys sp)).
  split; [now apply create_ball_stick_model_run|].
  split; [apply balls_are_spheres|].
  split; [apply sticks_are_cylinders|].
  intros i Hi. do 3 eexists.
  split; [apply nth_error_balls; lia|].
  split; [apply nth_error_balls; lia|].
  split; [apply nth_error_sticks; lia|].
  unfold stick, cylinder_object, depth. simpl.
  destruct (nth i (layout_points xs ys sp) origin) as [[ax ay] az].
  destruct (nth (i + 1) (layout_points xs ys sp) origin) as [[bx by_] bz].
  split; [repeat split; simpl; apply fmid|].
  repeat split.
Qed.

(** C4.  The colour gradient.  For a frame of N rows whose columns convert,
    the layout appends spheres, then cylinders, and the i-th sphere has the colour (i/N, 1 - i/N, 0.8, 1); hence for i < j the red
    channel of ball i is at most that of ball j and its green channel is at
    least that of ball j. *)
Theorem C4_ball_colour_gradient
  df x_col y_col sp br sr xs ys (sc : Scene) :
  column_as_float df x_col = inr xs ->
  column_as_float df y_col = inr ys ->
  exists placements connectors,
    create_ball_stick_model df x_col y_col sp br sr sc
    = (inr tt, (sc ++ placements ++ connectors)%list)
    /\ Forall (fun o => is_sphere o = true) placements
    /\ Forall (fun o => is_cylinder o = true) connectors
    /\ (forall i, (i < len df)%nat ->
          exists o,
            nth_error placements i = Some o
            /\ color_of o
               = Some (ratio i (len df), 1 - ratio i (len df), 8 # 10, 1))
    /\ (forall i j oi oj ci cj,
          (i < j)%nat ->
          nth_error placements i = Some oi ->
          nth_error placements j = Some oj ->
          color_of oi = Some ci ->
          color_of oj = Some cj ->
          red ci <= red cj /\ green cj <= green ci).
Proof.
  intros Hx Hy.
  pose proof (column_as_float_length _ _ _ Hx) as Lx.
  pose proof (column_as_float_length _ _ _ Hy) as Ly.
  assert (Lp : List.length (layout_points xs ys sp) = len df)
    by (rewrite layout_points_length; congruence).
  exists (balls br (len df) (layout_points xs ys sp)),
         (sticks sr (layout_points xs ys sp)).
  split; [now apply create_ball_stick_model_run|].
  split; [apply balls_are_spheres|].
  split; [apply sticks_are_cylinders|].
  split.
  - intros i Hi. eexists. split; [apply nth_error_balls; lia|].
    reflexivity.
  - intros i j oi oj ci cj Hij Hi Hj Hci Hcj.
    assert (Hjn : (j < len df)%nat).
    { rewrite <- Lp, <- (balls_length br (len df)).
      apply nth_error_Some. congruence. }
    rewrite nth_error_balls in Hi, Hj by lia.
    injection Hi as <-. injection Hj as <-.
    rewrite color_of_ball in Hci, Hcj.
    injection Hci as <-. injection Hcj as <-. simpl.
    assert (H : ratio i (len df) <= ratio j (len df)) by (apply ratio_le; lia).
    split; lra.
Qed.

(** C5.  The constant column.  For a frame whose columns convert, if the x
    column is numeric and constant then its normalised values are the raw
    values themselves, so that ball i sits at x = raw x of row i times the
    spacing; likewise for y.  In particular the single row (3,4) gives one
    ball at (3 * spacing, 4 * spacing, 0), no stick and no failure. *)
Theorem C5_constant_column_passes_through :
  (forall df x_col y_col sp br sr xs ys (sc : Scene),
      column_as_float df x_col = inr xs ->
      column_as_float df y_col = inr ys ->
      let placed := balls br (len df) (layout_points xs ys sp) in
      create_ball_stick_model df x_col y_col sp br sr sc
      = (inr tt, (sc ++ placed ++ sticks sr (layout_points xs ys sp))%list)
      /\ (forall c qs, xs = map Fin qs -> constant_column c qs ->
            norm_column xs = xs
            /\ forall i, (i < len df)%nat ->
                 exists o, nth_error placed i = Some o
                           /\ xcoord (location o)
                              = fmul (nth i xs NaN) (Fin sp))
      /\ (forall c qs, ys = map Fin qs -> constant_column c qs ->
            norm_column ys = ys
            /\ forall i, (i < len df)%nat ->
                 exists o, nth_error placed i = Some o
                           /\ ycoord (location o)
                              = fmul (nth i ys NaN) (Fin sp)))
  /\ (forall sp br sr (sc : Scene),
        create_ball_stick_model single_row "x" "y" sp br sr sc
        = (inr tt,
           (sc ++ [sphere_object (Fin (3 * sp), Fin (4 * sp), Fin 0) br
                     "Ball_0" (ball_color 0 1)])%list)).
Proof.
  split.
  - intros df x_col y_col sp br sr xs ys sc Hx Hy placed.
    pose proof (column_as_float_length _ _ _ Hx) as Lx.
    pose proof (column_as_float_length _ _ _ Hy) as Ly.
    assert (Lp : List.length (layout_points xs ys sp) = len df)
      by (rewrite layout_points_length; congruence).
    split; [now apply create_ball_stick_model_run|].
    split.
    + intros c qs E Hc.
      assert (En : norm_column xs = xs)
        by (rewrite E; now apply norm_column_constant with c).
      split; [exact En|].
      intros i Hi. eexists. split; [apply nth_error_balls; lia|].
      simpl. rewrite point_nth by congruence. simpl. now rewrite En.
    + intros c qs E Hc.
      assert (En : norm_column ys = ys)
        by (rewrite E; now apply norm_column_constant with c).
      split; [exact En|].
      intros i Hi. eexists. split; [apply nth_error_balls; lia|].
      simpl. rewrite point_nth by congruence. simpl. now rewrite En.
  - intros sp br sr sc.
    now rewrite (create_ball_stick_model_run single_row "x" "y" sp br sr
                   [Fin 3] [Fin 4] sc).
Qed.

(** C6 (amended).  A value that does not convert.  If both columns are in
    the frame and one of them holds a text that is no number, the layout
    fails with the conversion error of the library, which carries the text
    at fault (the value, not the name of its column), and the scene is left
    as it was: no ball, no stick.  The visualize operator then reports
    "Failed to visualize: ..." with the message of that error, cancels, and
    leaves the scene as it was. *)
Theorem C6_conversion_failure_aborts_layout df x_col y_col xcells ycells :
  DataFrame_getitem df x_col = inr xcells ->
  DataFrame_getitem df y_col = inr ycells ->
  (exists t, unconvertible xcells t) \/ (exists t, unconvertible ycells t) ->
  exists t,
    (unconvertible xcells t \/ unconvertible ycells t)
    /\ (forall sp br sr (sc : Scene),
          create_ball_stick_model df x_col y_col sp br sr sc
          = (inl (ValueError t), sc))
    /\ (forall c : Context,
          read_csv (filepath (csv_visualizer c)) = inr df ->
          x_column (csv_visualizer c) = x_col ->
          y_column (csv_visualizer c) = y_col ->
          CSV_OT_VisualizeGraph_execute c
          = (inr CANCELLED,
             {| csv_visualizer := csv_visualizer c;
                objects := objects c;
                reports :=
                  (reports c
                   ++ [("ERROR",
                        ("Failed to visualize: " ++ str (ValueError t))%string)])%list
             |})).
Proof.
  intros Gx Gy Hbad.
  assert (Hfail : exists t,
             (unconvertible xcells t \/ unconvertible ycells t)
             /\ forall sp br sr (sc : Scene),
                  create_ball_stick_model df x_col y_col sp br sr sc
                  = (inl (ValueError t), sc)).
  { destruct (astype_float_total xcells) as [[xs Hxs] | (t & Hxt & Hxu)].
    - destruct Hbad as [[t Ht] | Hy].
      + exfalso. now apply (astype_float_ok _ _ t Hxs).
      + destruct (astype_float_fails ycells Hy) as (t & Hyt & Hyu).
        exists t. split; [now right|]. intros sp br sr sc.
        apply create_ball_stick_model_y_fails with xs;
          unfold column_as_float; [now rewrite Gx | now rewrite Gy].
    - exists t. split; [now left|]. intros sp br sr sc.
      apply create_ball_stick_model_x_fails.
      unfold column_as_float. now rewrite Gx. }
  destruct Hfail as (t & Ht & Hrun).
  exists t. split; [exact Ht|]. split; [exact Hrun|].
  intros c Hr Ex Ey.
  rewrite (visualize_run c df Hr).
  - rewrite Ex, Ey, Hrun. reflexivity.
  - rewrite Ex. now apply has_column_getitem with xcells.
  - rewrite Ey. now apply has_column_getitem with ycells.
Qed.

(** C7.  A missing column.  If the file is read and one of the two
    configured column names is not in its header, the visualize operator
    cancels with the report "Column 'x' or 'y' not found in CSV." carrying
    both configured names, and the scene is left as it was. *)
Theorem C7_missing_column_is_reported (c : Context) (df : DataFrame) :
  let props := csv_visualizer c in
  read_csv (filepath props) = inr df ->
  has_column df (x_column props) = false
  \/ has_column df (y_column props) = false ->
  CSV_OT_VisualizeGraph_execute c
  = (inr CANCELLED,
     {| csv_visualizer := props;
        objects := objects c;
        reports :=
          (reports c
           ++ [("ERROR",
                ("Column '" ++ x_column props ++ "' or '" ++ y_column props
                 ++ "' not found in CSV.")%string)])%list |}).
Proof.
  intros props Hr Hmiss.
  cbv [CSV_OT_VisualizeGraph_execute bind get try_except lift].
  fold props. rewrite Hr.
  assert (E : negb (has_column df (x_column props))
              || negb (has_column df (y_column props)) = true).
  { destruct Hmiss as [-> | ->]; [reflexivity | apply orb_true_r]. }
  rewrite E. reflexivity.
Qed.

(** C8.  A file that cannot be read.  If reading the file raises, the load
    operator catches the exception: it returns normally, with the loaded
    flag false and the message "Error reading CSV: ..." in the error-message
    field. *)
Theorem C8_load_failure_is_caught (self_filepath : string) (e : Exception)
  (c : Context) :
  read_csv self_filepath = inl e ->
  exists c',
    CSV_OT_LoadFile_execute self_filepath c = (inr FINISHED, c')
    /\ file_loaded (csv_visualizer c') = false
    /\ error_message (csv_visualizer c')
       = "Error reading CSV: " ++ str e.
Proof.
  intros Hr. eexists.
  cbv [CSV_OT_LoadFile_execute bind try_except lift].
  rewrite Hr. split; [reflexivity|]. split; reflexivity.
Qed.

(** C9.  The load operator always finishes.  It returns FINISHED on every
    path.  When reading fails, the context changes in two fields only: the
    loaded flag becomes false and the error message becomes a non-empty
    text; the stored file path keeps its previous value.  When reading
    succeeds the path is stored, the flag is set and the message cleared. *)
Theorem C9_load_always_finishes (self_filepath : string) (c : Context) :
  let p := csv_visualizer c in
  fst (CSV_OT_LoadFile_execute self_filepath c) = inr FINISHED
  /\ (forall e, read_csv self_filepath = inl e ->
        snd (CSV_OT_LoadFile_execute self_filepath c)
        = {| csv_visualizer :=
               {| filepath := filepath p; x_column := x_column p;
                  y_column := y_column p; spacing := spacing p;
                  ball_radius := ball_radius p;
                  stick_radius := stick_radius p;
                  file_loaded := false;
                  error_message := "Error reading CSV: " ++ str e |};
             objects := objects c; reports := reports c |}
        /\ "Error reading CSV: " ++ str e <> "")
  /\ (forall df, read_csv self_filepath = inr df ->
        snd (CSV_OT_LoadFile_execute self_filepath c)
        = {| csv_visualizer :=
               {| filepath := self_filepath; x_column := x_column p;
                  y_column := y_column p; spacing := spacing p;
                  ball_radius := ball_radius p;
                  stick_radius := stick_radius p;
                  file_loaded := true;
                  error_message := "" |};
             objects := objects c; reports := reports c |}).
Proof.
  intros p.
  cbv [CSV_OT_LoadFile_execute bind try_except lift].
  destruct (read_csv self_filepath) as [e|df]; simpl.
  - split; [reflexivity|]. split.
    + intros e' [= <-]. split; [reflexivity | discriminate].
    + intros df [=].
  - split; [reflexivity|]. split.
    + intros e [=].
    + intros df' _. reflexivity.
Qed.

(** C10.  No division by zero, and colours within bounds.  On every frame
    and whatever the columns asked for, the layout does not end in a
    ZeroDivisionError; what it adds to the scene is nothing when the frame is
    empty, and every sphere it adds has its red channel in [0,1) and its
    green channel in (0,1]. *)
Theorem C10_no_division_by_zero_and_channel_bounds
  df x_col y_col sp br sr (sc : Scene) :
  fst (create_ball_stick_model df x_col y_col sp br sr sc)
  <> inl ZeroDivisionError
  /\ exists emitted,
       snd (create_ball_stick_model df x_col y_col sp br sr sc)
       = (sc ++ emitted)%list
       /\ (len df = 0%nat -> emitted = [])
       /\ forall o, In o emitted -> is_sphere o = true ->
            exists c, color_of o = Some c
                      /\ 0 <= red c /\ red c < 1
                      /\ 0 < green c /\ green c <= 1.
Proof.
  destruct (create_ball_stick_model_cases df x_col y_col sp br sr sc)
    as [(e & -> & He) | (xs & ys & Hx & Hy & ->)]; simpl.
  - split.
    + destruct He as [[c ->] | [t ->]]; discriminate.
    + exists []. rewrite app_nil_r. repeat split. intros o [].
  - split; [discriminate|].
    pose proof (column_as_float_length _ _ _ Hx) as Lx.
    pose proof (column_as_float_length _ _ _ Hy) as Ly.
    assert (Lp : List.length (layout_points xs ys sp) = len df)
      by (rewrite layout_points_length; congruence).
    eexists. split; [reflexivity|]. split.
    + intros H0. rewrite H0 in Lp.
      destruct (layout_points xs ys sp); [reflexivity | discriminate].
    + intros o Ho Hs. apply in_app_or in Ho. destruct Ho as [Ho | Ho].
      * apply In_balls_color in Ho; [|lia].
        destruct Ho as (i & Hi & Hc & _).
        exists (ball_color i (len df)). split; [exact Hc|]. simpl.
        destruct (ratio_bounds i (len df) Hi). repeat split; lra.
      * pose proof (sticks_are_cylinders sr (layout_points xs ys sp)) as Hcy.
        rewrite Forall_forall in Hcy. specialize (Hcy o Ho).
        unfold is_sphere in Hs. unfold is_cylinder in Hcy.
        destruct (data o); discriminate.
Qed.

(** ** Further properties of the code *)

(** *** The helper functions *)

Lemma fmid_sym (a b : float) :
  feq (fadd a (fdiv (fsub b a) (Fin 2))) (fadd b (fdiv (fsub a b) (Fin 2))).
Proof.
  destruct a as [x|], b as [y|]; simpl; trivial.
  field.
Qed.

Lemma fsq_sym (a b : float) :
  feq (fmul (fsub b a) (fsub b a)) (fmul (fsub a b) (fsub a b)).
Proof.
  destruct a as [x|], b as [y|]; simpl; trivial.
  ring.
Qed.

Lemma feq_fadd (a a' b b' : float) :
  feq a a' -> feq b b' -> feq (fadd a b) (fadd a' b').
Proof.
  destruct a, a', b, b'; simpl; try tauto.
  intros -> ->. reflexivity.
Qed.

(** X2.  A stick does not depend on the order of its two end points, except
    for its direction: [add_cylinder_between p1 p2] and
    [add_cylinder_between p2 p1] put the cylinder at the same place with the
    same depth, and turn it onto opposite vectors. *)
Theorem X2_stick_is_symmetric_in_its_end_points
  (p1 p2 : Vector) (r : Q) (n : string) (col : Color) (sc : Scene) :
  exists h o o',
    add_cylinder_between p1 p2 r n col sc = (inr h, (sc ++ [o])%list)
    /\ add_cylinder_between p2 p1 r n col sc = (inr h, (sc ++ [o'])%list)
    /\ Vector_eq (location o) (location o')
    /\ (exists d d',
           depth o = Some d /\ depth o' = Some d'
           /\ feq (radicand d) (radicand d'))
    /\ rotation_quaternion o = TrackQuat (Vector_sub p2 p1) "Z" "Y"
    /\ rotation_quaternion o' = TrackQuat (Vector_sub p1 p2) "Z" "Y".
Proof.
  rewrite !add_cylinder_between_run. do 3 eexists.
  split; [reflexivity|]. split; [reflexivity|].
  destruct p1 as [[ax ay] az], p2 as [[bx by_] bz].
  split; [repeat split; simpl; apply fmid_sym|].
  split; [|split; reflexivity].
  do 2 eexists. split; [reflexivity|]. split; [reflexivity|].
  simpl. repeat apply feq_fadd; apply fsq_sym.
Qed.

(** X3.  Two end points at the same finite place give a stick of length 0
    centred at that place, turned onto the zero vector: consecutive rows that
    coincide are joined all the same. *)
Theorem X3_stick_between_coincident_points
  (x y z r : Q) (n : string) (col : Color) (sc : Scene) :
  let p := (Fin x, Fin y, Fin z) in
  exists h o d,
    add_cylinder_between p p r n col sc = (inr h, (sc ++ [o])%list)
    /\ Vector_eq (location o) p
    /\ depth o = Some d /\ root_is d 0
    /\ exists v, rotation_quaternion o = TrackQuat v "Z" "Y"
                 /\ Vector_eq v origin.
Proof.
  intros p. rewrite add_cylinder_between_run. do 3 eexists.
  split; [reflexivity|].
  split; [repeat split; simpl; field|].
  split; [reflexivity|].
  split; [split; [apply Qle_refl | simpl; ring]|].
  eexists. split; [reflexivity|].
  repeat split; simpl; ring.
Qed.

(** *** The layout: which error, and when *)

Lemma DataFrame_getitem_missing df c :
  has_column df c = false -> DataFrame_getitem df c = inl (KeyError c).
Proof.
  intros H. unfold DataFrame_getitem.
  destruct (index_of c (columns df)) eqn:E; [|reflexivity].
  assert (Ht : has_column df c = true)
    by (apply has_column_index; congruence).
  congruence.
Qed.

(** X4.  Called with the name of a column the frame does not have, the
    layout raises the [KeyError] of that name and leaves the scene as it
    was; the x column is looked up first, the y column only once the x
    column has been converted. *)
Theorem X4_layout_raises_KeyError_on_a_missing_column
  df x_col y_col sp br sr (sc : Scene) :
  (has_column df x_col = false ->
   create_ball_stick_model df x_col y_col sp br sr sc
   = (inl (KeyError x_col), sc))
  /\ (forall xs,
        column_as_float df x_col = inr xs ->
        has_column df y_col = false ->
        create_ball_stick_model df x_col y_col sp br sr sc
        = (inl (KeyError y_col), sc)).
Proof.
  split.
  - intros H. apply create_ball_stick_model_x_fails.
    unfold column_as_float. now rewrite DataFrame_getitem_missing.
  - intros xs Hx H. apply create_ball_stick_model_y_fails with xs; [exact Hx|].
    unfold column_as_float. now rewrite DataFrame_getitem_missing.
Qed.

(** X5.  The layout fails exactly when one of the two columns is missing or
    does not convert, with the error of the x column if there is one and
    that of the y column otherwise; the calls into Blender and the indexing
    of the points never fail (no [IndexError]); and whenever the layout
    fails the scene is left as it was. *)
Theorem X5_layout_outcome_is_decided_by_the_two_columns
  df x_col y_col sp br sr (sc : Scene) :
  let run := create_ball_stick_model df x_col y_col sp br sr sc in
  fst run
  = match column_as_float df x_col with
    | inl e => inl e
    | inr _ =>
        match column_as_float df y_col with
        | inl e => inl e
        | inr _ => inr tt
        end
    end
  /\ fst run <> inl IndexError
  /\ (forall e, fst run = inl e -> snd run = sc).
Proof.
  intros run. subst run.
  destruct (column_as_float df x_col) as [e|xs] eqn:Hx.
  { rewrite (create_ball_stick_model_x_fails _ _ _ _ _ _ _ _ Hx). simpl.
    split; [reflexivity|]. split; [|reflexivity].
    destruct (column_as_float_error _ _ _ Hx) as [-> | [t ->]]; discriminate. }
  destruct (column_as_float df y_col) as [e|ys] eqn:Hy.
  { rewrite (create_ball_stick_model_y_fails _ _ _ _ _ _ _ _ _ Hx Hy). simpl.
    split; [reflexivity|]. split; [|reflexivity].
    destruct (column_as_float_error _ _ _ Hy) as [-> | [t ->]]; discriminate. }
  rewrite (create_ball_stick_model_run _ _ _ _ _ _ _ _ _ Hx Hy). simpl.
  split; [reflexivity|]. split; discriminate.
Qed.

Lemma in_combine_same {A} (l : list A) (a b : A) :
  In (a, b) (combine l l) -> a = b.
Proof.
  induction l as [|c l IH]; simpl; [tauto|].
  intros [[= <- <-] | H]; [reflexivity | now apply IH].
Qed.

(** X6.  When the same column is chosen for x and for y, every ball lies on
    the diagonal: its x and y coordinates are the same. *)
Theorem X6_same_column_twice_gives_the_diagonal
  df col sp br sr xs (sc : Scene) :
  column_as_float df col = inr xs ->
  exists placements connectors,
    create_ball_stick_model df col col sp br sr sc
    = (inr tt, (sc ++ placements ++ connectors)%list)
    /\ List.length placements = len df
    /\ forall o, In o placements ->
         xcoord (location o) = ycoord (location o).
Proof.
  intros Hx.
  pose proof (column_as_float_length _ _ _ Hx) as Lx.
  exists (balls br (len df) (layout_points xs xs sp)),
         (sticks sr (layout_points xs xs sp)).
  split; [now apply create_ball_stick_model_run|].
  split; [rewrite balls_length, layout_points_length; congruence|].
  intros o Ho. apply In_balls_location in Ho.
  unfold layout_points, zip in Ho. apply in_map_iff in Ho.
  destruct Ho as ([x y] & <- & Hxy).
  apply in_combine_same in Hxy. now subst.
Qed.

(** *** The layout: order and scale of the values *)

Lemma scaled_mono (lo hi q r : Q) :
  lo < hi ->
  (q <= r -> (q - lo) / (hi - lo) <= (r - lo) / (hi - lo))
  /\ (q < r -> (q - lo) / (hi - lo) < (r - lo) / (hi - lo)).
Proof.
  intros Hlt.
  assert (Hinv : 0 < / (hi - lo)) by (apply Qinv_lt_0_compat; lra).
  unfold Qdiv. split; intros H.
  - apply Qmult_le_compat_r; lra.
  - apply Qmult_lt_compat_r; lra.
Qed.

Lemma nth_map_Fin (g : Q -> Q) (qs : list Q) (i : nat) :
  (i < List.length qs)%nat ->
  nth i (map (fun q => Fin (g q)) qs) NaN = Fin (g (nth i qs 0)).
Proof.
  intros Hi.
  rewrite (nth_indep _ NaN (Fin (g 0))) by (now rewrite length_map).
  apply (map_nth (fun q => Fin (g q))).
Qed.

(** Along a column with two distinct values, the scaled coordinates never
    reverse the raw values. *)
Lemma scaled_column_order (qs : list Q) (sp : Q) (i j : nat) :
  two_distinct qs -> 0 <= sp ->
  (i < List.length qs)%nat -> (j < List.length qs)%nat ->
  exists a b,
    fmul (nth i (norm_column (map Fin qs)) NaN) (Fin sp) = Fin a
    /\ fmul (nth j (norm_column (map Fin qs)) NaN) (Fin sp) = Fin b
    /\ (nth i qs 0 <= nth j qs 0 -> a <= b)
    /\ (nth i qs 0 == nth j qs 0 -> a == b).
Proof.
  intros H2 Hsp Hi Hj.
  destruct (norm_column_scaled qs H2) as (lo & hi & Hlt & _ & _ & _ & ->).
  rewrite !nth_map_Fin by assumption.
  destruct (scaled_mono lo hi (nth i qs 0) (nth j qs 0) Hlt) as [Hle _].
  do 2 eexists. split; [reflexivity|]. split; [reflexivity|]. split; intros H.
  - apply Qmult_le_compat_r; [now apply Hle | exact Hsp].
  - now rewrite H.
Qed.

(** X7.  The layout never reverses the order of the values.  For a finite
    spacing that is not negative and an x column without empty cell, of
    binary64 values whose spread does not overflow, with at least two
    distinct values: if row i has an x value no greater than that of row j,
    ball i does not lie to the right of ball j, and rows of equal x value
    get the same x coordinate; likewise along y. *)
Theorem X7_layout_never_reverses_the_order_of_the_values
  df x_col y_col sp br sr xs ys (sc : Scene) :
  column_as_float df x_col = inr xs ->
  column_as_float df y_col = inr ys ->
  0 <= sp ->
  binary64 sp ->
  exists placements connectors,
    create_ball_stick_model df x_col y_col sp br sr sc
    = (inr tt, (sc ++ placements ++ connectors)%list)
    /\ List.length placements = len df
    /\ (forall qs,
          xs = map Fin qs -> regular_column qs -> two_distinct qs ->
          forall i j oi oj,
            nth_error placements i = Some oi ->
            nth_error placements j = Some oj ->
            exists a b,
              xcoord (location oi) = Fin a /\ xcoord (location oj) = Fin b
              /\ (nth i qs 0 <= nth j qs 0 -> a <= b)
              /\ (nth i qs 0 == nth j qs 0 -> a == b))
    /\ (forall qs,
          ys = map Fin qs -> regular_column qs -> two_distinct qs ->
          forall i j oi oj,
            nth_error placements i = Some oi ->
            nth_error placements j = Some oj ->
            exists a b,
              ycoord (location oi) = Fin a /\ ycoord (location oj) = Fin b
              /\ (nth i qs 0 <= nth j qs 0 -> a <= b)
              /\ (nth i qs 0 == nth j qs 0 -> a == b)).
Proof.
  intros Hx Hy Hsp _.
  pose proof (column_as_float_length _ _ _ Hx) as Lx.
  pose proof (column_as_float_length _ _ _ Hy) as Ly.
  assert (Lp : List.length (layout_points xs ys sp) = len df)
    by (rewrite layout_points_length; congruence).
  exists (balls br (len df) (layout_points xs ys sp)),
         (sticks sr (layout_points xs ys sp)).
  split; [now apply create_ball_stick_model_run|].
  split; [now rewrite balls_length|].
  assert (Hloc : forall i o,
             nth_error (balls br (len df) (layout_points xs ys sp)) i = Some o ->
             (i < len df)%nat
             /\ location o
                = position sp (nth i (norm_column xs) NaN,
                               nth i (norm_column ys) NaN)).
  { intros i o Ho.
    assert (Hi : (i < len df)%nat).
    { rewrite <- Lp, <- (balls_length br (len df)).
      apply nth_error_Some. congruence. }
    split; [exact Hi|].
    rewrite nth_error_balls in Ho by lia. injection Ho as <-. simpl.
    apply point_nth; congruence. }
  split.
  - intros qs -> _ H2 i j oi oj Hoi Hoj.
    destruct (Hloc i oi Hoi) as [Hi ->]. destruct (Hloc j oj Hoj) as [Hj ->].
    rewrite length_map in Lx. simpl.
    apply scaled_column_order; try assumption; lia.
  - intros qs -> _ H2 i j oi oj Hoi Hoj.
    destruct (Hloc i oi Hoi) as [Hi ->]. destruct (Hloc j oj Hoj) as [Hj ->].
    rewrite length_map in Ly. simpl.
    apply scaled_column_order; try assumption; lia.
Qed.

(** *** The layout: names *)

Lemma to_uint_nonnil (n : nat) : Nat.to_uint n <> Decimal.Nil.
Proof.
  assert (E : Nat.to_uint n = Decimal.unorm (Nat.to_uint n)).
  { rewrite <- DecimalNat.Unsigned.to_of.
    now rewrite DecimalNat.Unsigned.of_to. }
  rewrite E. apply DecimalFacts.unorm_nonnil.
Qed.

(** Two numbers with the same decimal text are the same. *)
Lemma str_of_nat_inj (i j : nat) : str_of_nat i = str_of_nat j -> i = j.
Proof.
  unfold str_of_nat. intros H.
  apply (f_equal NilZero.uint_of_string) in H.
  rewrite !NilZero.usu in H by apply to_uint_nonnil.
  injection H as H. now apply DecimalNat.Unsigned.to_uint_inj.
Qed.

Lemma names_of_balls br n points :
  map name (balls br n points)
  = map (fun i => "Ball_" ++ str_of_nat i) (seq 0 (List.length points)).
Proof.
  unfold balls, enumerate. rewrite map_map. simpl.
  generalize 0%nat. induction points as [|p points IH]; intros k; simpl.
  - reflexivity.
  - now rewrite IH.
Qed.

Lemma names_of_sticks sr points :
  map name (sticks sr points)
  = map (fun i => "Stick_" ++ str_of_nat i) (seq 0 (List.length points - 1)).
Proof. unfold sticks. now rewrite map_map. Qed.

(** X9.  Within one layout no two objects get the same name: the names
    "Ball_0", "Ball_1", ... and "Stick_0", "Stick_1", ... asked for are
    pairwise distinct. *)
Theorem X9_names_of_one_layout_are_distinct
  df x_col y_col sp br sr xs ys (sc : Scene) :
  column_as_float df x_col = inr xs ->
  column_as_float df y_col = inr ys ->
  exists emitted,
    create_ball_stick_model df x_col y_col sp br sr sc
    = (inr tt, (sc ++ emitted)%list)
    /\ NoDup (map name emitted).
Proof.
  intros Hx Hy.
  exists (balls br (len df) (layout_points xs ys sp)
          ++ sticks sr (layout_points xs ys sp))%list.
  split; [now apply create_ball_stick_model_run|].
  rewrite map_app, names_of_balls, names_of_sticks.
  apply NoDup_app.
  - apply Finite.Injective_map_NoDup; [|apply seq_NoDup].
    intros i j H. apply str_of_nat_inj. simpl in H. now injection H.
  - apply Finite.Injective_map_NoDup; [|apply seq_NoDup].
    intros i j H. apply str_of_nat_inj. simpl in H. now injection H.
  - intros s Hb Hs.
    apply in_map_iff in Hb. destruct Hb as (i & <- & _).
    apply in_map_iff in Hs. destruct Hs as (j & Hj & _).
    simpl in Hj. discriminate Hj.
Qed.

(** *** The visualize operator *)

Lemma column_as_float_has_column df c xs :
  column_as_float df c = inr xs -> has_column df c = true.
Proof.
  unfold column_as_float.
  destruct (DataFrame_getitem df c) as [|s] eqn:E; [discriminate|].
  intros _. now apply has_column_getitem with s.
Qed.

Lemma has_column_column_as_float df c :
  has_column df c = true ->
  (exists xs, column_as_float df c = inr xs)
  \/ exists t, column_as_float df c = inl (ValueError t).
Proof.
  intros H. apply has_column_index in H. unfold column_as_float, DataFrame_getitem.
  destruct (index_of c (columns df)) as [k|]; [|congruence].
  destruct (astype_float_total
              (map (fun r => nth k r (Number NaN)) (rows df)))
    as [[fs E] | (t & E & _)]; rewrite E; eauto.
Qed.

Lemma visualize_read_fails (c : Context) (e : Exception) :
  read_csv (filepath (csv_visualizer c)) = inl e ->
  CSV_OT_VisualizeGraph_execute c
  = (inr CANCELLED, reported c "ERROR" ("Failed to visualize: " ++ str e)).
Proof.
  intros Hr.
  cbv [CSV_OT_VisualizeGraph_execute bind get try_except lift].
  rewrite Hr. reflexivity.
Qed.

Lemma visualize_column_missing (c : Context) (df : DataFrame) :
  read_csv (filepath (csv_visualizer c)) = inr df ->
  has_column df (x_column (csv_visualizer c)) = false
  \/ has_column df (y_column (csv_visualizer c)) = false ->
  CSV_OT_VisualizeGraph_execute c
  = (inr CANCELLED,
     reported c "ERROR" (column_message (csv_visualizer c))).
Proof.
  intros Hr Hmiss.
  cbv [CSV_OT_VisualizeGraph_execute bind get try_except lift].
  rewrite Hr.
  assert (E : negb (has_column df (x_column (csv_visualizer c)))
              || negb (has_column df (y_column (csv_visualizer c))) = true).
  { destruct Hmiss as [-> | ->]; [reflexivity | apply orb_true_r]. }
  rewrite E. reflexivity.
Qed.

Lemma visualize_succeeds
  (c : Context) (df : DataFrame) (xs ys : list float) :
  let props := csv_visualizer c in
  read_csv (filepath props) = inr df ->
  column_as_float df (x_column props) = inr xs ->
  column_as_float df (y_column props) = inr ys ->
  CSV_OT_VisualizeGraph_execute c
  = (inr FINISHED,
     reported
       (with_objects c
          (objects c
           ++ balls (ball_radius props) (len df)
                (layout_points xs ys (spacing props))
           ++ sticks (stick_radius props)
                (layout_points xs ys (spacing props)))%list)
       "INFO" "Graph created.").
Proof.
  intros props Hr Hx Hy.
  rewrite (visualize_run c df Hr).
  - fold props.
    now rewrite (create_ball_stick_model_run _ _ _ _ _ _ _ _ _ Hx Hy).
  - now apply column_as_float_has_column with xs.
  - now apply column_as_float_has_column with ys.
Qed.

(** X10.  The success path of the visualize operator.  If the file is read
    and both configured columns are there and convert, the operator returns
    FINISHED, adds the balls and then the sticks of the layout to the
    objects of the scene, reports INFO "Graph created.", and leaves the
    properties as they were. *)
Theorem X10_visualize_succeeds_on_a_good_file
  (c : Context) (df : DataFrame) (xs ys : list float) :
  let props := csv_visualizer c in
  read_csv (filepath props) = inr df ->
  column_as_float df (x_column props) = inr xs ->
  column_as_float df (y_column props) = inr ys ->
  CSV_OT_VisualizeGraph_execute c
  = (inr FINISHED,
     reported
       (with_objects c
          (objects c
           ++ balls (ball_radius props) (len df)
                (layout_points xs ys (spacing props))
           ++ sticks (stick_radius props)
                (layout_points xs ys (spacing props)))%list)
       "INFO" "Graph created.").
Proof.
  intros props Hr Hx Hy.
  rewrite (visualize_run c df Hr).
  - fold props.
    now rewrite (create_ball_stick_model_run _ _ _ _ _ _ _ _ _ Hx Hy).
  - now apply column_as_float_has_column with xs.
  - now apply column_as_float_has_column with ys.
Qed.

(** X11.  A file that cannot be read at visualize time.  If reading the
    stored path raises, the operator catches the exception, reports ERROR
    "Failed to visualize: ..." with its message, returns CANCELLED and
    changes nothing else. *)
Theorem X11_visualize_catches_a_read_failure (c : Context) (e : Exception) :
  read_csv (filepath (csv_visualizer c)) = inl e ->
  CSV_OT_VisualizeGraph_execute c
  = (inr CANCELLED, reported c "ERROR" ("Failed to visualize: " ++ str e)).
Proof.
  intros Hr.
  cbv [CSV_OT_VisualizeGraph_execute bind get try_except lift].
  rewrite Hr. reflexivity.
Qed.

(** The outcomes of the visualize operator once the file is read. *)
Lemma visualize_cases
  (c : Context) (df : DataFrame) :
  let props := csv_visualizer c in
  read_csv (filepath props) = inr df ->
  ((has_column df (x_column props) = false
    \/ has_column df (y_column props) = false)
   /\ CSV_OT_VisualizeGraph_execute c
      = (inr CANCELLED, reported c "ERROR" (column_message props)))
  \/ (has_column df (x_column props) = true
      /\ has_column df (y_column props) = true
      /\ exists t,
           (column_as_float df (x_column props) = inl (ValueError t)
            \/ (exists xs, column_as_float df (x_column props) = inr xs)
               /\ column_as_float df (y_column props) = inl (ValueError t))
           /\ CSV_OT_VisualizeGraph_execute c
              = (inr CANCELLED,
                 reported c "ERROR"
                   ("Failed to visualize: " ++ str (ValueError t))))
  \/ (exists xs ys,
        column_as_float df (x_column props) = inr xs
        /\ column_as_float df (y_column props) = inr ys
        /\ CSV_OT_VisualizeGraph_execute c
           = (inr FINISHED,
              reported
                (with_objects c
                   (objects c
                    ++ balls (ball_radius props) (len df)
                         (layout_points xs ys (spacing props))
                    ++ sticks (stick_radius props)
                         (layout_points xs ys (spacing props)))%list)
                "INFO" "Graph created.")).
Proof.
  intros props Hr.
  destruct (has_column df (x_column props)) eqn:Hcx.
  2:{ left. split; [now left|]. apply visualize_column_missing with df; auto. }
  destruct (has_column df (y_column props)) eqn:Hcy.
  2:{ left. split; [now right|]. apply visualize_column_missing with df; auto. }
  right.
  destruct (has_column_column_as_float _ _ Hcx) as [[xs Hx] | [t Hx]].
  - destruct (has_column_column_as_float _ _ Hcy) as [[ys Hy] | [t Hy]].
    + right. exists xs, ys. split; [exact Hx|]. split; [exact Hy|].
      now apply visualize_succeeds.
    + left. split; [reflexivity|]. split; [reflexivity|]. exists t. split.
      * right. split; [now exists xs | exact Hy].
      * rewrite (visualize_run c df Hr Hcx Hcy). fold props.
        now rewrite (create_ball_stick_model_y_fails _ _ _ _ _ _ _ _ _ Hx Hy).
  - left. split; [reflexivity|]. split; [reflexivity|]. exists t. split.
    + now left.
    + rewrite (visualize_run c df Hr Hcx Hcy). fold props.
      now rewrite (create_ball_stick_model_x_fails _ _ _ _ _ _ _ _ Hx).
Qed.

(** X12.  Once the file is read, the visualize operator has three outcomes
    and no other: a configured column is missing and the column message is
    reported; or both are there and one does not convert, and the
    [ValueError] of the x column, else of the y column, is reported; or the
    graph is created.  The column test thus keeps the [KeyError] of the
    layout from ever being reported. *)
Theorem X12_visualize_outcomes_once_the_file_is_read
  (c : Context) (df : DataFrame) :
  let props := csv_visualizer c in
  read_csv (filepath props) = inr df ->
  ((has_column df (x_column props) = false
    \/ has_column df (y_column props) = false)
   /\ CSV_OT_VisualizeGraph_execute c
      = (inr CANCELLED, reported c "ERROR" (column_message props)))
  \/ (has_column df (x_column props) = true
      /\ has_column df (y_column props) = true
      /\ exists t,
           (column_as_float df (x_column props) = inl (ValueError t)
            \/ (exists xs, column_as_float df (x_column props) = inr xs)
               /\ column_as_float df (y_column props) = inl (ValueError t))
           /\ CSV_OT_VisualizeGraph_execute c
              = (inr CANCELLED,
                 reported c "ERROR"
                   ("Failed to visualize: " ++ str (ValueError t))))
  \/ (exists xs ys,
        column_as_float df (x_column props) = inr xs
        /\ column_as_float df (y_column props) = inr ys
        /\ CSV_OT_VisualizeGraph_execute c
           = (inr FINISHED,
              reported
                (with_objects c
                   (objects c
                    ++ balls (ball_radius props) (len df)
                         (layout_points xs ys (spacing props))
                    ++ sticks (stick_radius props)
                         (layout_points xs ys (spacing props)))%list)
                "INFO" "Graph created.")).
Proof.
  intros props Hr.
  destruct (has_column df (x_column props)) eqn:Hcx.
  2:{ left. split; [now left|]. apply visualize_column_missing with df; auto. }
  destruct (has_column df (y_column props)) eqn:Hcy.
  2:{ left. split; [now right|]. apply visualize_column_missing with df; auto. }
  right.
  destruct (has_column_column_as_float _ _ Hcx) as [[xs Hx] | [t Hx]].
  - destruct (has_column_column_as_float _ _ Hcy) as [[ys Hy] | [t Hy]].
    + right. exists xs, ys. split; [exact Hx|]. split; [exact Hy|].
      now apply visualize_succeeds.
    + left. split; [reflexivity|]. split; [reflexivity|]. exists t. split.
      * right. split; [now exists xs | exact Hy].
      * rewrite (visualize_run c df Hr Hcx Hcy). fold props.
        now rewrite (create_ball_stick_model_y_fails _ _ _ _ _ _ _ _ _ Hx Hy).
  - left. split; [reflexivity|]. split; [reflexivity|]. exists t. split.
    + now left.
    + rewrite (visualize_run c df Hr Hcx Hcy). fold props.
      now rewrite (create_ball_stick_model_x_fails _ _ _ _ _ _ _ _ Hx).
Qed.

(** X13.  What the visualize operator keeps, on every context.  It always
    returns, with FINISHED or CANCELLED, and never lets an exception out; it
    never changes the properties; it adds exactly one report, which is INFO
    "Graph created." when it returns FINISHED and an ERROR when it returns
    CANCELLED; the objects that were in the scene stay in front, and when it
    returns CANCELLED no object is added at all. *)
Theorem X13_visualize_reports_once_and_cancels_cleanly (c : Context) :
  exists r c',
    CSV_OT_VisualizeGraph_execute c = (inr r, c')
    /\ csv_visualizer c' = csv_visualizer c
    /\ (exists emitted,
           objects c' = (objects c ++ emitted)%list
           /\ (r = CANCELLED -> emitted = []))
    /\ (exists level msg,
           reports c' = (reports c ++ [(level, msg)])%list
           /\ (r = FINISHED -> (level, msg) = ("INFO", "Graph created."))
           /\ (r = CANCELLED -> level = "ERROR")).
Proof.
  assert (Hcancel : forall msg,
            CSV_OT_VisualizeGraph_execute c
            = (inr CANCELLED, reported c "ERROR" msg) ->
            exists r c',
              CSV_OT_VisualizeGraph_execute c = (inr r, c')
              /\ csv_visualizer c' = csv_visualizer c
              /\ (exists emitted,
                     objects c' = (objects c ++ emitted)%list
                     /\ (r = CANCELLED -> emitted = []))
              /\ (exists level msg,
                     reports c' = (reports c ++ [(level, msg)])%list
                     /\ (r = FINISHED ->
                         (level, msg) = ("INFO", "Graph created."))
                     /\ (r = CANCELLED -> level = "ERROR"))).
  { intros msg E. do 2 eexists. split; [exact E|].
    split; [reflexivity|]. split.
    - exists []. simpl. now rewrite app_nil_r.
    - exists "ERROR", msg. repeat split. discriminate. }
  destruct (read_csv (filepath (csv_visualizer c))) as [e|df] eqn:Hr.
  { eapply Hcancel. exact (visualize_read_fails c e Hr). }
  destruct (visualize_cases c df Hr)
    as [[_ E] | [(_ & _ & t & _ & E) | (xs & ys & _ & _ & E)]].
  - eapply Hcancel. exact E.
  - eapply Hcancel. exact E.
  - do 2 eexists. split; [exact E|]. split; [reflexivity|]. split.
    + eexists. split; [reflexivity | discriminate].
    + exists "INFO", "Graph created.". repeat split. discriminate.
Qed.

(** The visualize operator reads neither the loaded flag nor the error
    message. *)
Lemma visualize_ignores_status (c : Context) (loaded : bool) (msg : string) :
  CSV_OT_VisualizeGraph_execute (with_status c loaded msg)
  = (fst (CSV_OT_VisualizeGraph_execute c),
     with_status (snd (CSV_OT_VisualizeGraph_execute c)) loaded msg).
Proof.
  cbv [CSV_OT_VisualizeGraph_execute bind get try_except lift with_status].
  simpl.
  destruct (read_csv (filepath (csv_visualizer c))) as [e|df]; [reflexivity|].
  destruct (negb (has_column df (x_column (csv_visualizer c)))
            || negb (has_column df (y_column (csv_visualizer c))));
    [reflexivity|].
  cbv [in_scene]. simpl.
  destruct (create_ball_stick_model _ _ _ _ _ _ _) as [[e|[]] sc'];
    reflexivity.
Qed.

Lemma load_fails (self_filepath : string) (c : Context) (e : Exception) :
  read_csv self_filepath = inl e ->
  CSV_OT_LoadFile_execute self_filepath c
  = (inr FINISHED,
     with_status c false ("Error reading CSV: " ++ str e)).
Proof.
  intros Hr. cbv [CSV_OT_LoadFile_execute bind try_except lift].
  rewrite Hr. reflexivity.
Qed.

(** X14.  The visualize operator does not look at the loaded flag.  After a
    load that failed, which leaves the earlier path in place, invoking it
    does exactly what it would have done before that load: same result, same
    objects, same report. *)
Theorem X14_visualize_after_a_failed_load_uses_the_earlier_file
  (self_filepath : string) (e : Exception) (c : Context) :
  read_csv self_filepath = inl e ->
  let c1 := snd (CSV_OT_LoadFile_execute self_filepath c) in
  file_loaded (csv_visualizer c1) = false
  /\ fst (CSV_OT_VisualizeGraph_execute c1)
     = fst (CSV_OT_VisualizeGraph_execute c)
  /\ objects (snd (CSV_OT_VisualizeGraph_execute c1))
     = objects (snd (CSV_OT_VisualizeGraph_execute c))
  /\ reports (snd (CSV_OT_VisualizeGraph_execute c1))
     = reports (snd (CSV_OT_VisualizeGraph_execute c)).
Proof.
  intros Hr c1. subst c1. rewrite (load_fails _ _ _ Hr). simpl snd.
  rewrite visualize_ignores_status. repeat split.
Qed.

(** X15.  Earlier graphs are never removed.  Invoking the visualize operator
    twice on a good file (the file being the same at both times) keeps the
    objects of the first run and adds as many again, with the same meshes at
    the same places; both runs return FINISHED. *)
Theorem X15_visualize_twice_accumulates
  (c : Context) (df : DataFrame) (xs ys : list float) :
  let props := csv_visualizer c in
  read_csv (filepath props) = inr df ->
  column_as_float df (x_column props) = inr xs ->
  column_as_float df (y_column props) = inr ys ->
  let c1 := snd (CSV_OT_VisualizeGraph_execute c) in
  let c2 := snd (CSV_OT_VisualizeGraph_execute c1) in
  exists first second,
    objects c1 = (objects c ++ first)%list
    /\ objects c2 = (objects c ++ first ++ second)%list
    /\ map data second = map data first
    /\ map location second = map location first
    /\ fst (CSV_OT_VisualizeGraph_execute c) = inr FINISHED
    /\ fst (CSV_OT_VisualizeGraph_execute c1) = inr FINISHED.
Proof.
  intros props Hr Hx Hy c1 c2. subst c2 c1.
  rewrite (visualize_succeeds c df xs ys Hr Hx Hy). simpl snd. simpl fst.
  fold props.
  set (L := (balls (ball_radius props) (len df)
               (layout_points xs ys (spacing props))
             ++ sticks (stick_radius props)
                  (layout_points xs ys (spacing props)))%list).
  rewrite (visualize_succeeds _ df xs ys); try assumption.
  simpl. fold props. fold L.
  exists L, L. repeat split. now rewrite <- app_assoc.
Qed.

(** *** The panel *)

Lemma truthy_spec (s : string) : truthy s = true <-> s <> "".
Proof.
  unfold truthy. destruct (String.eqb_spec s ""); simpl; split;
    intros H; congruence.
Qed.

(** What [draw] adds to a layout. *)
Lemma draw_run (c : Context) (l : list UIItem) :
  CSV_PT_VisualizerPanel_draw c l
  = (inr tt,
     (l ++ UIOperator "csv.load_file" "FILE_FOLDER"
        :: (if file_loaded (csv_visualizer c) then
              [UILabel ("CSV Loaded: "
                        ++ basename (filepath (csv_visualizer c)))
                 "CHECKMARK";
               UIProp "x_column"; UIProp "y_column"; UIProp "spacing";
               UIProp "ball_radius"; UIProp "stick_radius";
               UIOperator "csv.visualize_graph" "GRAPH"]
            else if truthy (error_message (csv_visualizer c)) then
              [UILabel (error_message (csv_visualizer c)) "ERROR"]
            else []))%list).
Proof.
  cbv [CSV_PT_VisualizerPanel_draw bind layout_operator layout_label
       layout_prop modify ret].
  destruct (file_loaded (csv_visualizer c)).
  - rewrite <- !app_assoc. reflexivity.
  - destruct (truthy (error_message (csv_visualizer c)));
      rewrite <- ?app_assoc; reflexivity.
Qed.

(** X16.  What the panel offers.  On every context, drawing succeeds and
    puts the load button first; the visualize button is offered exactly when
    the loaded flag is set, and so is each of the five settings x_column,
    y_column, spacing, ball_radius and stick_radius, and nothing else is
    offered as a setting; an error label is shown exactly when the flag is
    not set and the error message is not empty, and it then shows that
    message. *)
Theorem X16_panel_offers_visualize_only_when_loaded
  (c : Context) (l : list UIItem) :
  let props := csv_visualizer c in
  exists items,
    CSV_PT_VisualizerPanel_draw c l = (inr tt, (l ++ items)%list)
    /\ nth_error items 0 = Some (UIOperator "csv.load_file" "FILE_FOLDER")
    /\ (In (UIOperator "csv.visualize_graph" "GRAPH") items
        <-> file_loaded props = true)
    /\ (forall p,
          In (UIProp p) items
          <-> file_loaded props = true
              /\ In p ["x_column"; "y_column"; "spacing"; "ball_radius";
                       "stick_radius"])
    /\ (forall text,
          In (UILabel text "ERROR") items
          <-> file_loaded props = false
              /\ error_message props <> ""
              /\ text = error_message props).
Proof.
  intros props. rewrite draw_run. fold props. eexists.
  split; [reflexivity|]. split; [reflexivity|].
  destruct (file_loaded props); simpl.
  - split; [split; auto 10|]. split.
    + intros p. split.
      * intros [H | [H | [H | [H | [H | [H | [H | [H | []]]]]]]]];
          try discriminate H; injection H as <-; split; auto 10.
      * intros [_ [<- | [<- | [<- | [<- | [<- | []]]]]]]; auto 10.
    + intros text. split.
      * intros [H | [H | [H | [H | [H | [H | [H | [H | []]]]]]]]];
          discriminate H.
      * intros [H _]. discriminate H.
  - destruct (truthy (error_message props)) eqn:Et; simpl.
    + apply truthy_spec in Et. split.
      { split; [intros [H | [H | []]]; discriminate H | discriminate]. }
      split.
      { intros p. split.
        - intros [H | [H | []]]; discriminate H.
        - intros [H _]. discriminate H. }
      intros text. split.
      * intros [H | [H | []]]; [discriminate H|].
        injection H as <-. auto.
      * intros (_ & _ & ->). right. now left.
    + assert (En : error_message props = "").
      { destruct (String.eqb_spec (error_message props) "") as [E|E];
          [exact E|].
        apply truthy_spec in E. congruence. }
      split.
      { split; [intros [H | []]; discriminate H | discriminate]. }
      split.
      { intros p. split.
        - intros [H | []]; discriminate H.
        - intros [H _]. discriminate H. }
      intros text. split.
      * intros [H | []]; discriminate H.
      * intros (_ & Hne & _). contradiction.
Qed.

Lemma load_succeeds (self_filepath : string) (c : Context) (df : DataFrame) :
  read_csv self_filepath = inr df ->
  CSV_OT_LoadFile_execute self_filepath c
  = (inr FINISHED,
     let p := csv_visualizer c in
     {| csv_visualizer :=
          {| filepath := self_filepath; x_column := x_column p;
             y_column := y_column p; spacing := spacing p;
             ball_radius := ball_radius p; stick_radius := stick_radius p;
             file_loaded := true; error_message := "" |};
        objects := objects c; reports := reports c |}).
Proof.
  intros Hr. cbv [CSV_OT_LoadFile_execute bind try_except lift].
  rewrite Hr. reflexivity.
Qed.

(** X17.  The panel after a load.  After a load that failed the panel shows
    the load button and the message "Error reading CSV: ..." and does not
    offer the visualize button, whatever was loaded before; after a load
    that succeeded it shows the name of the new file, the five settings and
    the visualize button, whatever error was shown before. *)
Theorem X17_panel_follows_the_outcome_of_the_load
  (self_filepath : string) (c : Context) :
  let c1 := snd (CSV_OT_LoadFile_execute self_filepath c) in
  (forall e, read_csv self_filepath = inl e ->
     CSV_PT_VisualizerPanel_draw c1 []
     = (inr tt,
        [UIOperator "csv.load_file" "FILE_FOLDER";
         UILabel ("Error reading CSV: " ++ str e) "ERROR"]))
  /\ (forall df, read_csv self_filepath = inr df ->
        CSV_PT_VisualizerPanel_draw c1 []
        = (inr tt,
           [UIOperator "csv.load_file" "FILE_FOLDER";
            UILabel ("CSV Loaded: " ++ basename self_filepath) "CHECKMARK";
            UIProp "x_column"; UIProp "y_column"; UIProp "spacing";
            UIProp "ball_radius"; UIProp "stick_radius";
            UIOperator "csv.visualize_graph" "GRAPH"])).
Proof.
  intros c1. subst c1. split.
  - intros e Hr. rewrite (load_fails _ _ _ Hr), draw_run. reflexivity.
  - intros df Hr. rewrite (load_succeeds _ _ _ Hr), draw_run. reflexivity.
Qed.

(** *** Registration *)

Lemma existsb_eqb_In (cls : string) (l : list string) :
  existsb (String.eqb cls) l = true <-> In cls l.
Proof.
  rewrite existsb_exists. split.
  - intros (x & Hx & E). apply String.eqb_eq in E. now subst.
  - intros H. exists cls. split; [exact H | apply String.eqb_refl].
Qed.

Lemma existsb_eqb_not_In (cls : string) (l : list string) :
  ~ In cls l -> existsb (String.eqb cls) l = false.
Proof.
  intros H. destruct (existsb (String.eqb cls) l) eqn:E; [|reflexivity].
  apply existsb_eqb_In in E. contradiction.
Qed.

Lemma filter_not_In (cls : string) (l : list string) :
  ~ In cls l -> filter (fun c => negb (String.eqb cls c)) l = l.
Proof.
  induction l as [|a l IH]; simpl; intros H; [reflexivity|].
  destruct (String.eqb_spec cls a) as [-> | Hne]; simpl.
  - exfalso. apply H. now left.
  - rewrite IH; [reflexivity|]. intros Hin. apply H. now right.
Qed.

Lemma register_class_fresh (cls : string) (l : list string)
  (p : option string) :
  ~ In cls l ->
  register_class cls {| registered_classes := l; Scene_csv_visualizer := p |}
  = (inr tt,
     {| registered_classes := (l ++ [cls])%list;
        Scene_csv_visualizer := p |}).
Proof.
  intros H. unfold register_class. simpl.
  now rewrite existsb_eqb_not_In.
Qed.

Lemma unregister_class_last (cls : string) (l : list string)
  (p : option string) :
  ~ In cls l ->
  unregister_class cls
    {| registered_classes := (l ++ [cls])%list; Scene_csv_visualizer := p |}
  = (inr tt, {| registered_classes := l; Scene_csv_visualizer := p |}).
Proof.
  intros H. unfold unregister_class. simpl.
  assert (E : existsb (String.eqb cls) (l ++ [cls]) = true).
  { apply existsb_eqb_In, in_or_app. right. now left. }
  rewrite E, filter_app, filter_not_In by exact H. simpl.
  rewrite String.eqb_refl. simpl. now rewrite app_nil_r.
Qed.

Lemma not_In_snoc (cls c : string) (l : list string) :
  ~ In cls l -> cls <> c -> ~ In cls (l ++ [c])%list.
Proof.
  intros H Hne Hin. apply in_app_or in Hin.
  destruct Hin as [Hin | [E | []]]; [contradiction | congruence].
Qed.

(** What a successful [register] does. *)
Lemma register_fresh (l : list string) (p : option string) :
  (forall cls, In cls classes -> ~ In cls l) ->
  register {| registered_classes := l; Scene_csv_visualizer := p |}
  = (inr tt,
     {| registered_classes := (l ++ classes)%list;
        Scene_csv_visualizer := Some "CSVVisualizerProps" |}).
Proof.
  intros H.
  assert (H1 : ~ In "CSVVisualizerProps" l) by (apply H; simpl; auto).
  assert (H2 : ~ In "CSV_OT_LoadFile" l) by (apply H; simpl; auto).
  assert (H3 : ~ In "CSV_OT_VisualizeGraph" l) by (apply H; simpl; auto).
  assert (H4 : ~ In "CSV_PT_VisualizerPanel" l) by (apply H; simpl; auto).
  unfold register, classes. rewrite bind_run.
  rewrite for_each_cons, register_class_fresh by exact H1.
  cbv beta iota.
  rewrite for_each_cons, register_class_fresh
    by (apply not_In_snoc; [exact H2 | discriminate]).
  cbv beta iota.
  rewrite for_each_cons, register_class_fresh
    by (repeat apply not_In_snoc; try exact H3; discriminate).
  cbv beta iota.
  rewrite for_each_cons, register_class_fresh
    by (repeat apply not_In_snoc; try exact H4; discriminate).
  simpl. rewrite <- !app_assoc. reflexivity.
Qed.

(** X18.  Registering and then unregistering the add-on leaves Blender as it
    was: on a host that knows none of the four classes and has no
    [csv_visualizer] property on its scenes, [register] followed by
    [unregister] succeeds and restores the registered classes and removes
    the property again. *)
Theorem X18_register_then_unregister_restores_the_host (h : Host) :
  (forall cls, In cls classes -> ~ In cls (registered_classes h)) ->
  Scene_csv_visualizer h = None ->
  exists h1,
    register h = (inr tt, h1)
    /\ (forall cls, In cls classes -> In cls (registered_classes h1))
    /\ Scene_csv_visualizer h1 = Some "CSVVisualizerProps"
    /\ unregister h1 = (inr tt, h).
Proof.
  destruct h as [l p]. simpl. intros H ->.
  assert (H1 : ~ In "CSVVisualizerProps" l) by (apply H; simpl; auto).
  assert (H2 : ~ In "CSV_OT_LoadFile" l) by (apply H; simpl; auto).
  assert (H3 : ~ In "CSV_OT_VisualizeGraph" l) by (apply H; simpl; auto).
  assert (H4 : ~ In "CSV_PT_VisualizerPanel" l) by (apply H; simpl; auto).
  eexists. split; [now apply register_fresh|].
  split; [intros cls Hc; simpl; apply in_or_app; now right|].
  split; [reflexivity|].
  unfold unregister, classes. simpl rev. rewrite bind_run.
  change (l ++ ["CSVVisualizerProps"; "CSV_OT_LoadFile";
                "CSV_OT_VisualizeGraph"; "CSV_PT_VisualizerPanel"])%list
    with (l ++ ["CSVVisualizerProps"; "CSV_OT_LoadFile";
                "CSV_OT_VisualizeGraph"] ++ ["CSV_PT_VisualizerPanel"])%list.
  rewrite app_assoc.
  rewrite for_each_cons, unregister_class_last
    by (intros Hin; apply in_app_or in Hin;
        destruct Hin as [Hin | [E | [E | [E | []]]]];
        [contradiction | discriminate E..]).
  cbv beta iota.
  change (l ++ ["CSVVisualizerProps"; "CSV_OT_LoadFile";
                "CSV_OT_VisualizeGraph"])%list
    with (l ++ ["CSVVisualizerProps"; "CSV_OT_LoadFile"]
            ++ ["CSV_OT_VisualizeGraph"])%list.
  rewrite app_assoc.
  rewrite for_each_cons, unregister_class_last
    by (intros Hin; apply in_app_or in Hin;
        destruct Hin as [Hin | [E | [E | []]]];
        [contradiction | discriminate E..]).
  cbv beta iota.
  change (l ++ ["CSVVisualizerProps"; "CSV_OT_LoadFile"])%list
    with (l ++ ["CSVVisualizerProps"] ++ ["CSV_OT_LoadFile"])%list.
  rewrite app_assoc.
  rewrite for_each_cons, unregister_class_last
    by (intros Hin; apply in_app_or in Hin;
        destruct Hin as [Hin | [E | []]];
        [contradiction | discriminate E]).
  cbv beta iota.
  rewrite for_each_cons, unregister_class_last by exact H1.
  reflexivity.
Qed.

(** X19.  Registration is not repeatable.  A second [register] after a
    successful one fails on the first class and changes nothing; and
    [unregister] on a host where the panel class is not registered fails on
    that class, the first it tries, and changes nothing. *)
Theorem X19_register_twice_and_unregister_unregistered_fail (h : Host) :
  (forall h1, register h = (inr tt, h1) ->
     exists e, register h1 = (inl e, h1))
  /\ (~ In "CSV_PT_VisualizerPanel" (registered_classes h) ->
      exists e, unregister h = (inl e, h)).
Proof.
  split.
  - intros h1 Hreg.
    assert (Hin : In "CSVVisualizerProps" (registered_classes h1)).
    { revert Hreg. unfold register, classes.
      rewrite bind_run, for_each_cons.
      unfold register_class at 1.
      destruct (existsb (String.eqb "CSVVisualizerProps")
                  (registered_classes h)); [discriminate|].
      rewrite for_each_cons. unfold register_class at 1. cbn [registered_classes].
      destruct (existsb (String.eqb "CSV_OT_LoadFile") _); [discriminate|].
      rewrite for_each_cons. unfold register_class at 1. cbn [registered_classes].
      destruct (existsb (String.eqb "CSV_OT_VisualizeGraph") _); [discriminate|].
      rewrite for_each_cons. unfold register_class at 1. cbn [registered_classes].
      destruct (existsb (String.eqb "CSV_PT_VisualizerPanel") _); [discriminate|].
      simpl. intros [= <-]. simpl.
      apply in_or_app. left. apply in_or_app. left. apply in_or_app. left.
      apply in_or_app. right. now left. }
    apply existsb_eqb_In in Hin.
    eexists. unfold register, classes.
    rewrite bind_run, for_each_cons. unfold register_class at 1.
    rewrite Hin. reflexivity.
  - intros Hn. apply existsb_eqb_not_In in Hn.
    eexists. unfold unregister, classes. simpl rev.
    rewrite bind_run, for_each_cons. unfold unregister_class at 1.
    rewrite Hn. reflexivity.
Qed.

(** *** Loading, then visualizing *)

(** X20.  The file drawn is the file loaded.  After a load of a path that
    succeeded, the visualize operator reads that same path: if the two
    configured columns of its frame convert, it returns FINISHED and adds the
    layout of that frame to the scene. *)
Theorem X20_visualize_draws_the_file_just_loaded
  (self_filepath : string) (c : Context) (df : DataFrame)
  (xs ys : list float) :
  let props := csv_visualizer c in
  read_csv self_filepath = inr df ->
  column_as_float df (x_column props) = inr xs ->
  column_as_float df (y_column props) = inr ys ->
  let c1 := snd (CSV_OT_LoadFile_execute self_filepath c) in
  filepath (csv_visualizer c1) = self_filepath
  /\ fst (CSV_OT_VisualizeGraph_execute c1) = inr FINISHED
  /\ objects (snd (CSV_OT_VisualizeGraph_execute c1))
     = (objects c
        ++ balls (ball_radius props) (len df)
             (layout_points xs ys (spacing props))
        ++ sticks (stick_radius props)
             (layout_points xs ys (spacing props)))%list.
Proof.
  intros props Hr Hx Hy c1. subst c1.
  rewrite (load_succeeds _ _ _ Hr). simpl snd.
  split; [reflexivity|].
  rewrite (visualize_succeeds _ df xs ys); try assumption.
  split; reflexivity.
Qed.

(** *** Empty cells *)

Lemma Series_min_dropna (xs : list float) :
  Series_min xs = Series_min (map Fin (dropna xs)).
Proof. unfold Series_min. now rewrite dropna_Fin. Qed.

Lemma Series_max_dropna (xs : list float) :
  Series_max xs = Series_max (map Fin (dropna xs)).
Proof. unfold Series_max. now rewrite dropna_Fin. Qed.

(** NaN stays NaN through the normalisation. *)
Lemma norm_column_NaN (xs : list float) (i : nat) :
  nth i xs NaN = NaN -> nth i (norm_column xs) NaN = NaN.
Proof.
  intros H. unfold norm_column, Series_div, Series_sub.
  destruct (fne _ _); [|exact H].
  rewrite map_map.
  set (g := fun x => fdiv (fsub x (Series_min xs))
                       (fsub (Series_max xs) (Series_min xs))).
  change NaN with (g NaN) at 1. rewrite map_nth. now rewrite H.
Qed.

(** A column whose finite entries have the least value [lo] and the greatest
    value [hi], not equal, is scaled entry by entry. *)
Lemma norm_column_general (xs : list float) (lo hi : Q) :
  Series_min xs = Fin lo -> Series_max xs = Fin hi -> ~ hi == lo ->
  norm_column xs
  = map (fun x => match x with
                  | Fin q => Fin ((q - lo) / (hi - lo))
                  | NaN => NaN
                  end) xs.
Proof.
  intros Elo Ehi Hne. unfold norm_column. rewrite Elo, Ehi. simpl fne.
  destruct (Qeq_bool hi lo) eqn:E.
  { apply Qeq_bool_iff in E. contradiction. }
  simpl. unfold Series_div, Series_sub. rewrite map_map.
  apply map_ext. intros [q|]; simpl; [|reflexivity].
  destruct (Qeq_bool (hi - lo) 0) eqn:E0; [|reflexivity].
  apply Qeq_bool_iff in E0. exfalso. apply Hne. lra.
Qed.

(** The finite entries of a column with empty cells are scaled by the least
    and greatest finite entries, as they are in the column without the empty
    cells. *)
Lemma norm_column_with_gaps (xs : list float) :
  two_distinct (dropna xs) ->
  exists lo hi,
    lo < hi
    /\ norm_column (map Fin (dropna xs))
       = map (fun q => Fin ((q - lo) / (hi - lo))) (dropna xs)
    /\ forall i q, nth i xs NaN = Fin q ->
         nth i (norm_column xs) NaN = Fin ((q - lo) / (hi - lo)).
Proof.
  intros H2.
  pose proof (two_distinct_nonempty _ H2) as Hne.
  destruct (Series_min_Fin _ Hne) as (lo & Elo & Llo & _).
  destruct (Series_max_Fin _ Hne) as (hi & Ehi & Lhi & _).
  assert (Hlt : lo < hi).
  { destruct H2 as (a & b & Ha & Hb & Hab).
    pose proof (Llo a Ha). pose proof (Llo b Hb).
    pose proof (Lhi a Ha). pose proof (Lhi b Hb).
    destruct (Qlt_le_dec lo hi) as [|Hle]; [assumption|].
    exfalso. apply Hab. lra. }
  assert (Hne' : ~ hi == lo) by lra.
  exists lo, hi. split; [exact Hlt|]. split.
  - rewrite (norm_column_general _ lo hi Elo Ehi Hne').
    now rewrite map_map.
  - intros i q Hq.
    rewrite (norm_column_general xs lo hi); try assumption.
    + set (g := fun x => match x with
                         | Fin q => Fin ((q - lo) / (hi - lo))
                         | NaN => NaN
                         end).
      change NaN with (g NaN) at 1. rewrite map_nth. now rewrite Hq.
    + now rewrite Series_min_dropna.
    + now rewrite Series_max_dropna.
Qed.

(** X21.  Rows with an empty cell.  Such a row is not dropped: it gets its
    ball like any other, at a NaN coordinate.  The other rows are placed as
    they would be without it: when the remaining x values have at least two
    distinct values, each is scaled by the least and greatest of them. *)
Theorem X21_empty_cells_are_kept_and_do_not_move_the_others
  df x_col y_col sp br sr xs ys (sc : Scene) :
  column_as_float df x_col = inr xs ->
  column_as_float df y_col = inr ys ->
  exists placements connectors,
    create_ball_stick_model df x_col y_col sp br sr sc
    = (inr tt, (sc ++ placements ++ connectors)%list)
    /\ List.length placements = len df
    /\ (forall i o,
          nth_error placements i = Some o ->
          nth i xs NaN = NaN ->
          xcoord (location o) = NaN)
    /\ (two_distinct (dropna xs) ->
        exists lo hi,
          lo < hi
          /\ norm_column (map Fin (dropna xs))
             = map (fun q => Fin ((q - lo) / (hi - lo))) (dropna xs)
          /\ forall i o q,
               nth_error placements i = Some o ->
               nth i xs NaN = Fin q ->
               xcoord (location o) = Fin ((q - lo) / (hi - lo) * sp)).
Proof.
  intros Hx Hy.
  pose proof (column_as_float_length _ _ _ Hx) as Lx.
  pose proof (column_as_float_length _ _ _ Hy) as Ly.
  assert (Lp : List.length (layout_points xs ys sp) = len df)
    by (rewrite layout_points_length; congruence).
  exists (balls br (len df) (layout_points xs ys sp)),
         (sticks sr (layout_points xs ys sp)).
  split; [now apply create_ball_stick_model_run|].
  split; [now rewrite balls_length|].
  assert (Hloc : forall i o,
             nth_error (balls br (len df) (layout_points xs ys sp)) i = Some o ->
             xcoord (location o)
             = fmul (nth i (norm_column xs) NaN) (Fin sp)).
  { intros i o Ho.
    assert (Hi : (i < len df)%nat).
    { rewrite <- Lp, <- (balls_length br (len df)).
      apply nth_error_Some. congruence. }
    rewrite nth_error_balls in Ho by lia. injection Ho as <-. simpl.
    rewrite point_nth by congruence. reflexivity. }
  split.
  - intros i o Ho Hn. rewrite (Hloc i o Ho).
    now rewrite norm_column_NaN.
  - intros H2.
    destruct (norm_column_with_gaps xs H2) as (lo & hi & Hlt & E & Hn).
    exists lo, hi. split; [exact Hlt|]. split; [exact E|].
    intros i o q Ho Hq. rewrite (Hloc i o Ho), (Hn i q Hq). reflexivity.
Qed.

End Addon.

(** ** The claims at concrete inputs *)

Lemma C1_witness :
  column_as_float float_of_digits three_rows "x" = inr (map Fin [0; 10; 10])
  /\ column_as_float float_of_digits three_rows "y"
     = inr (map Fin [0; 0; 10])
  /\ 0 <= 5
  /\ binary64 5
  /\ regular_column [0; 10; 10] /\ two_distinct [0; 10; 10]
  /\ regular_column [0; 0; 10] /\ two_distinct [0; 0; 10]
  /\ forall o,
       In o (balls (2 # 10) 3
               (layout_points (map Fin [0; 10; 10]) (map Fin [0; 0; 10]) 5)) ->
       fbetween 0 5 (xcoord (location o))
       /\ fbetween 0 5 (ycoord (location o))
       /\ zcoord (location o) = Fin 0.
Proof.
  assert (H5 : 0 <= 5) by (unfold Qle; simpl; lia).
  assert (B0 : binary64 0).
  { exists 0%Z, 0%Z. split; [reflexivity|]. split; [lia | reflexivity]. }
  assert (B5 : binary64 5).
  { exists 5%Z, 0%Z. split; [reflexivity|]. split; [lia | reflexivity]. }
  assert (B10 : binary64 10).
  { exists 10%Z, 0%Z. split; [reflexivity|]. split; [lia | reflexivity]. }
  assert (Rx : regular_column [0; 10; 10]).
  { split; [repeat constructor; assumption|].
    intros a b [<- | [<- | [<- | []]]] [<- | [<- | [<- | []]]];
      vm_compute; discriminate. }
  assert (Ry : regular_column [0; 0; 10]).
  { split; [repeat constructor; assumption|].
    intros a b [<- | [<- | [<- | []]]] [<- | [<- | [<- | []]]];
      vm_compute; discriminate. }
  assert (Dx : two_distinct [0; 10; 10]).
  { exists 0, 10. simpl. repeat split; auto. intros H; discriminate H. }
  assert (Dy : two_distinct [0; 0; 10]).
  { exists 0, 10. simpl. repeat split; auto. intros H; discriminate H. }
  destruct (proj1 (C1_min_max_normalisation_of_regular_columns float_of_digits)
              three_rows "x" "y" 5 (2 # 10) (5 # 100) _ _ []
              eq_refl eq_refl H5 B5) as (_ & Hz & Hxx & Hyy).
  destruct (Hxx [0; 10; 10] eq_refl Rx Dx) as (_ & _ & Hxb).
  destruct (Hyy [0; 0; 10] eq_refl Ry Dy) as (_ & _ & Hyb).
  split; [reflexivity|]. split; [reflexivity|]. split; [exact H5|].
  split; [exact B5|]. split; [exact Rx|]. split; [exact Dx|].
  split; [exact Ry|]. split; [exact Dy|].
  intros o Ho. split; [now apply Hxb|]. split; [now apply Hyb | now apply Hz].
Defined.

Lemma C2_witness :
  column_as_float float_of_digits three_rows "x" = inr (map Fin [0; 10; 10])
  /\ column_as_float float_of_digits three_rows "y" = inr (map Fin [0; 0; 10])
  /\ exists placements connectors,
       create_ball_stick_model float_of_digits three_rows "x" "y" 5 (2 # 10)
         (5 # 100) []
       = (inr tt, ([] ++ placements ++ connectors)%list)
       /\ List.length placements = 3%nat
       /\ Z.of_nat (List.length connectors) = 2%Z.
Proof.
  split; [reflexivity|]. split; [reflexivity|].
  destruct (C2_one_ball_per_row_one_stick_per_pair float_of_digits three_rows
              "x" "y" 5 (2 # 10) (5 # 100) _ _ [] eq_refl eq_refl)
    as (ps & cs & Hrun & _ & _ & Hp & Hc & _).
  exists ps, cs. repeat split; assumption.
Defined.

Lemma C3_witness :
  column_as_float float_of_digits three_rows "x" = inr (map Fin [0; 10; 10])
  /\ column_as_float float_of_digits three_rows "y" = inr (map Fin [0; 0; 10])
  /\ (0 + 1 < len three_rows)%nat
  /\ exists placements connectors,
       create_ball_stick_model float_of_digits three_rows "x" "y" 5 (2 # 10)
         (5 # 100) []
       = (inr tt, ([] ++ placements ++ connectors)%list)
       /\ exists a b c,
            nth_error placements 0 = Some a
            /\ nth_error placements 1 = Some b
            /\ nth_error connectors 0 = Some c
            /\ Vector_eq (location c) (midpoint (location a) (location b))
            /\ depth c = Some (distance (location a) (location b))
            /\ rotation_quaternion c
               = TrackQuat (Vector_sub (location b) (location a)) "Z" "Y"
            /\ color_of c = Some (8 # 10, 8 # 10, 8 # 10, 1).
Proof.
  assert (H : (0 + 1 < len three_rows)%nat)
    by (unfold len, three_rows; simpl; lia).
  split; [reflexivity|]. split; [reflexivity|]. split; [exact H|].
  destruct (C3_stick_between_adjacent_balls float_of_digits three_rows
              "x" "y" 5 (2 # 10) (5 # 100) _ _ [] eq_refl eq_refl)
    as (ps & cs & Hrun & _ & _ & Hpair).
  exists ps, cs. split; [exact Hrun|].
  destruct (Hpair 0%nat H) as (a & b & c & Ha & Hb & Hc & Hm & Hd & _ & Hq & Hk).
  exists a, b, c. repeat split; try assumption; apply Hm.
Defined.

Lemma C4_witness :
  column_as_float float_of_digits three_rows "x" = inr (map Fin [0; 10; 10])
  /\ column_as_float float_of_digits three_rows "y" = inr (map Fin [0; 0; 10])
  /\ exists placements connectors,
       create_ball_stick_model float_of_digits three_rows "x" "y" 5 (2 # 10)
         (5 # 100) []
       = (inr tt, ([] ++ placements ++ connectors)%list)
       /\ forall i, (i < 3)%nat ->
            exists o,
              nth_error placements i = Some o
              /\ color_of o = Some (ratio i 3, 1 - ratio i 3, 8 # 10, 1).
Proof.
  split; [reflexivity|]. split; [reflexivity|].
  destruct (C4_ball_colour_gradient float_of_digits three_rows
              "x" "y" 5 (2 # 10) (5 # 100) _ _ [] eq_refl eq_refl)
    as (ps & cs & Hrun & _ & _ & Hcol & _).
  exists ps, cs. split; [exact Hrun | exact Hcol].
Defined.

Lemma C5_witness :
  column_as_float float_of_digits single_row "x" = inr (map Fin [3])
  /\ column_as_float float_of_digits single_row "y" = inr (map Fin [4])
  /\ constant_column 3 [3]
  /\ norm_column (map Fin [3]) = map Fin [3].
Proof.
  assert (Hc : constant_column 3 [3]) by (repeat constructor).
  split; [reflexivity|]. split; [reflexivity|]. split; [exact Hc|].
  destruct (proj1 (C5_constant_column_passes_through float_of_digits)
              single_row "x" "y" 5 (2 # 10) (5 # 100) _ _ []
              eq_refl eq_refl) as (_ & Hx & _).
  exact (proj1 (Hx 3 [3] eq_refl Hc)).
Defined.

Lemma C6_witness :
  DataFrame_getitem bad_row "x" = inr [Number (Fin 1); Number (Fin 3)]
  /\ DataFrame_getitem bad_row "y" = inr [Text "2"; Text "abc"]
  /\ unconvertible float_of_digits [Text "2"; Text "abc"] "abc"
  /\ exists t,
       create_ball_stick_model float_of_digits bad_row "x" "y" 5 (2 # 10) (5 # 100)
         []
       = (inl (ValueError t), [])
       /\ CSV_OT_VisualizeGraph_execute float_of_digits three_files message
            (context_on "bad.csv")
          = (inr CANCELLED,
             {| csv_visualizer := csv_visualizer (context_on "bad.csv");
                objects := [];
                reports :=
                  [("ERROR",
                    ("Failed to visualize: " ++ message (ValueError t))%string)]
             |}).
Proof.
  assert (Hu : unconvertible float_of_digits [Text "2"; Text "abc"] "abc").
  { split; [right; left; reflexivity | reflexivity]. }
  split; [reflexivity|]. split; [reflexivity|]. split; [exact Hu|].
  destruct (C6_conversion_failure_aborts_layout float_of_digits three_files message
              bad_row "x" "y" _ _ eq_refl eq_refl
              (or_intror (ex_intro _ "abc" Hu)))
    as (t & _ & Hrun & Hop).
  exists t. split.
  - apply Hrun.
  - exact (Hop (context_on "bad.csv") eq_refl eq_refl eq_refl).
Defined.

Lemma C7_witness :
  three_files "other.csv" = inr no_y_column
  /\ has_column no_y_column "y" = false
  /\ CSV_OT_VisualizeGraph_execute float_of_digits three_files message
       (context_on "other.csv")
     = (inr CANCELLED,
        {| csv_visualizer := csv_visualizer (context_on "other.csv");
           objects := [];
           reports := [("ERROR", "Column 'x' or 'y' not found in CSV.")] |}).
Proof.
  split; [reflexivity|]. split; [reflexivity|].
  exact (C7_missing_column_is_reported float_of_digits three_files message
           (context_on "other.csv") no_y_column eq_refl
           (or_intror eq_refl)).
Defined.

Lemma C8_witness :
  three_files "missing.csv"
  = inl (OtherError "FileNotFoundError" "No such file or directory")
  /\ exists c',
       CSV_OT_LoadFile_execute three_files message "missing.csv"
         (context_on "rows.csv")
       = (inr FINISHED, c')
       /\ file_loaded (csv_visualizer c') = false
       /\ error_message (csv_visualizer c')
          = "Error reading CSV: No such file or directory".
Proof.
  split; [reflexivity|].
  exact (C8_load_failure_is_caught three_files message "missing.csv" _
           (context_on "rows.csv") eq_refl).
Defined.

Lemma C9_witness :
  three_files "missing.csv"
  = inl (OtherError "FileNotFoundError" "No such file or directory")
  /\ fst (CSV_OT_LoadFile_execute three_files message "missing.csv"
            (context_on "rows.csv"))
     = inr FINISHED
  /\ filepath (csv_visualizer
                 (snd (CSV_OT_LoadFile_execute three_files message
                         "missing.csv" (context_on "rows.csv"))))
     = "rows.csv".
Proof.
  split; [reflexivity|].
  destruct (C9_load_always_finishes three_files message "missing.csv"
              (context_on "rows.csv")) as (Hfin & Hfail & _).
  split; [exact Hfin|].
  destruct (Hfail _ eq_refl) as [-> _]. reflexivity.
Defined.

Lemma C10_witness :
  fst (create_ball_stick_model float_of_digits three_rows "x" "y" 5 (2 # 10)
         (5 # 100) [])
  <> inl ZeroDivisionError.
Proof.
  exact (proj1 (C10_no_division_by_zero_and_channel_bounds float_of_digits
                  three_rows "x" "y" 5 (2 # 10) (5 # 100) [])).
Defined.

(** C1 as stated does not hold: a column with at least two distinct values
    may also hold an empty cell.  In [gap_row] the x column reads 0, NaN, 10;
    the normalised value of the second row is NaN, which is not in [0,1],
    and the second ball is placed at x = NaN, which is not in [0, spacing]. *)
Lemma C1_counterexample :
  column_as_float float_of_digits gap_row "x" = inr [Fin 0; NaN; Fin 10]
  /\ In (Fin 0) [Fin 0; NaN; Fin 10] /\ In (Fin 10) [Fin 0; NaN; Fin 10]
  /\ ~ 0 == 10
  /\ nth 1 (norm_column [Fin 0; NaN; Fin 10]) (Fin 0) = NaN
  /\ ~ Forall (fbetween 0 1) (norm_column [Fin 0; NaN; Fin 10])
  /\ create_ball_stick_model float_of_digits gap_row "x" "y" 5 (2 # 10)
       (5 # 100) []
     = (inr tt,
        (balls (2 # 10) 3
           (layout_points [Fin 0; NaN; Fin 10] [Fin 0; Fin 5; Fin 10] 5)
         ++ sticks (5 # 100)
              (layout_points [Fin 0; NaN; Fin 10] [Fin 0; Fin 5; Fin 10] 5))%list)
  /\ exists o,
       nth_error
         (balls (2 # 10) 3
            (layout_points [Fin 0; NaN; Fin 10] [Fin 0; Fin 5; Fin 10] 5)) 1
       = Some o
       /\ xcoord (location o) = NaN
       /\ ~ fbetween 0 5 (xcoord (location o)).
Proof.
  split; [reflexivity|].
  split; [simpl; auto|]. split; [simpl; auto|].
  split; [intros H; discriminate H|].
  split; [reflexivity|].
  split.
  { intros H. apply Forall_inv_tail, Forall_inv in H. exact H. }
  split; [reflexivity|].
  eexists. split; [reflexivity|]. split; [reflexivity|].
  intros H. exact H.
Qed.

(** C6 as stated does not hold: the error does not name the field at fault.
    The layout ends in the same error whether the text "abc" sits in the x
    column ([bad_x]) or in the y column ([bad_row]), so nothing read off the
    error tells the column. *)
Lemma C6_counterexample :
  fst (create_ball_stick_model float_of_digits bad_x "x" "y" 5 (2 # 10)
         (5 # 100) [])
  = inl (ValueError "abc")
  /\ fst (create_ball_stick_model float_of_digits bad_row "x" "y" 5 (2 # 10)
            (5 # 100) [])
     = inl (ValueError "abc")
  /\ ~ exists field_of : Exception -> string,
         names_offending_field float_of_digits field_of.
Proof.
  split; [reflexivity|]. split; [reflexivity|].
  intros [field_of H].
  assert (Hx : exists t, unconvertible float_of_digits
                           [Text "1"; Text "abc"] t).
  { exists "abc". split; [right; left; reflexivity | reflexivity]. }
  assert (Hy : exists t, unconvertible float_of_digits
                           [Text "2"; Text "abc"] t).
  { exists "abc". split; [right; left; reflexivity | reflexivity]. }
  destruct (H bad_x "x" "y" _ _ 5 (2 # 10) (5 # 100) [] eq_refl eq_refl
              (or_introl Hx)) as (e1 & He1 & Hf1).
  destruct (H bad_row "x" "y" _ _ 5 (2 # 10) (5 # 100) [] eq_refl eq_refl
              (or_intror Hy)) as (e2 & He2 & Hf2).
  vm_compute in He1, He2.
  injection He1 as <-. injection He2 as <-.
  destruct Hf1 as [[E1 _] | [_ [t [Hin _]]]].
  - destruct Hf2 as [[_ [t [Hin _]]] | [E2 _]].
    + simpl in Hin. destruct Hin as [Hin | [Hin | []]]; discriminate Hin.
    + rewrite E1 in E2. discriminate E2.
  - simpl in Hin. destruct Hin as [Hin | [Hin | []]]; discriminate Hin.
Qed.

(** ** The further properties at concrete inputs *)

Lemma X4_witness :
  column_as_float float_of_digits no_y_column "x" = inr [Fin 1; Fin 3]
  /\ has_column no_y_column "y" = false
  /\ create_ball_stick_model float_of_digits no_y_column "x" "y" 5 (2 # 10)
       (5 # 100) []
     = (inl (KeyError "y"), []).
Proof.
  split; [reflexivity|]. split; [reflexivity|].
  exact (proj2 (X4_layout_raises_KeyError_on_a_missing_column float_of_digits
                  no_y_column "x" "y" 5 (2 # 10) (5 # 100) [])
           _ eq_refl eq_refl).
Defined.

Lemma X6_witness :
  column_as_float float_of_digits three_rows "x"
  = inr [Fin 0; Fin 10; Fin 10]
  /\ exists placements connectors,
       create_ball_stick_model float_of_digits three_rows "x" "x" 5 (2 # 10)
         (5 # 100) []
       = (inr tt, ([] ++ placements ++ connectors)%list)
       /\ forall o, In o placements ->
            xcoord (location o) = ycoord (location o).
Proof.
  split; [reflexivity|].
  destruct (X6_same_column_twice_gives_the_diagonal float_of_digits
              three_rows "x" 5 (2 # 10) (5 # 100) _ [] eq_refl)
    as (ps & cs & Hrun & _ & Hdiag).
  exists ps, cs. split; assumption.
Defined.

Lemma X7_witness :
  column_as_float float_of_digits three_rows "x" = inr (map Fin [0; 10; 10])
  /\ column_as_float float_of_digits three_rows "y"
     = inr (map Fin [0; 0; 10])
  /\ 0 <= 5
  /\ binary64 5
  /\ regular_column [0; 10; 10]
  /\ two_distinct [0; 10; 10]
  /\ exists placements connectors,
       create_ball_stick_model float_of_digits three_rows "x" "y" 5 (2 # 10)
         (5 # 100) []
       = (inr tt, ([] ++ placements ++ connectors)%list)
       /\ forall oi oj,
            nth_error placements 0 = Some oi ->
            nth_error placements 1 = Some oj ->
            exists a b,
              xcoord (location oi) = Fin a /\ xcoord (location oj) = Fin b
              /\ a <= b.
Proof.
  assert (H5 : 0 <= 5) by (unfold Qle; simpl; lia).
  assert (B0 : binary64 0).
  { exists 0%Z, 0%Z. split; [reflexivity|]. split; [lia | reflexivity]. }
  assert (B5 : binary64 5).
  { exists 5%Z, 0%Z. split; [reflexivity|]. split; [lia | reflexivity]. }
  assert (B10 : binary64 10).
  { exists 10%Z, 0%Z. split; [reflexivity|]. split; [lia | reflexivity]. }
  assert (Rx : regular_column [0; 10; 10]).
  { split; [repeat constructor; assumption|].
    intros a b [<- | [<- | [<- | []]]] [<- | [<- | [<- | []]]];
      vm_compute; discriminate. }
  assert (Dx : two_distinct [0; 10; 10]).
  { exists 0, 10. simpl. repeat split; auto. intros H; discriminate H. }
  split; [reflexivity|]. split; [reflexivity|]. split; [exact H5|].
  split; [exact B5|]. split; [exact Rx|]. split; [exact Dx|].
  destruct (X7_layout_never_reverses_the_order_of_the_values float_of_digits
              three_rows "x" "y" 5 (2 # 10) (5 # 100) _ _ []
              eq_refl eq_refl H5 B5)
    as (ps & cs & Hrun & _ & Hx & _).
  exists ps, cs. split; [exact Hrun|].
  intros oi oj Hi Hj.
  destruct (Hx [0; 10; 10] eq_refl Rx Dx 0%nat 1%nat oi oj Hi Hj)
    as (a & b & Ea & Eb & Hle & _).
  exists a, b. repeat split; try assumption.
  apply Hle. unfold Qle; simpl; lia.
Defined.

Lemma X9_witness :
  column_as_float float_of_digits three_rows "x" = inr (map Fin [0; 10; 10])
  /\ column_as_float float_of_digits three_rows "y"
     = inr (map Fin [0; 0; 10])
  /\ exists emitted,
       create_ball_stick_model float_of_digits three_rows "x" "y" 5 (2 # 10)
         (5 # 100) []
       = (inr tt, ([] ++ emitted)%list)
       /\ NoDup (map name emitted).
Proof.
  split; [reflexivity|]. split; [reflexivity|].
  exact (X9_names_of_one_layout_are_distinct float_of_digits three_rows
           "x" "y" 5 (2 # 10) (5 # 100) _ _ [] eq_refl eq_refl).
Defined.

Lemma X10_witness :
  three_files "rows.csv" = inr three_rows
  /\ column_as_float float_of_digits three_rows "x"
     = inr [Fin 0; Fin 10; Fin 10]
  /\ column_as_float float_of_digits three_rows "y"
     = inr [Fin 0; Fin 0; Fin 10]
  /\ fst (CSV_OT_VisualizeGraph_execute float_of_digits three_files message
            (context_on "rows.csv"))
     = inr FINISHED.
Proof.
  split; [reflexivity|]. split; [reflexivity|]. split; [reflexivity|].
  rewrite (X10_visualize_succeeds_on_a_good_file float_of_digits three_files
             message (context_on "rows.csv") three_rows _ _
             eq_refl eq_refl eq_refl).
  reflexivity.
Defined.

Lemma X11_witness :
  three_files "missing.csv"
  = inl (OtherError "FileNotFoundError" "No such file or directory")
  /\ CSV_OT_VisualizeGraph_execute float_of_digits three_files message
       (context_on "missing.csv")
     = (inr CANCELLED,
        reported (context_on "missing.csv") "ERROR"
          "Failed to visualize: No such file or directory").
Proof.
  split; [reflexivity|].
  exact (X11_visualize_catches_a_read_failure float_of_digits three_files
           message (context_on "missing.csv") _ eq_refl).
Defined.

Lemma X12_witness :
  three_files "other.csv" = inr no_y_column
  /\ fst (CSV_OT_VisualizeGraph_execute float_of_digits three_files message
            (context_on "other.csv"))
     <> inr FINISHED.
Proof.
  split; [reflexivity|].
  destruct (X12_visualize_outcomes_once_the_file_is_read float_of_digits
              three_files message (context_on "other.csv") no_y_column
              eq_refl)
    as [[_ E] | [(_ & Hy & _) | (xs & ys & _ & Hy & _)]].
  - rewrite E. discriminate.
  - discriminate Hy.
  - discriminate Hy.
Defined.

Lemma X14_witness :
  three_files "missing.csv"
  = inl (OtherError "FileNotFoundError" "No such file or directory")
  /\ fst (CSV_OT_VisualizeGraph_execute float_of_digits three_files message
            (snd (CSV_OT_LoadFile_execute three_files message "missing.csv"
                    (context_on "rows.csv"))))
     = fst (CSV_OT_VisualizeGraph_execute float_of_digits three_files message
              (context_on "rows.csv")).
Proof.
  split; [reflexivity|].
  exact (proj1 (proj2
           (X14_visualize_after_a_failed_load_uses_the_earlier_file
              float_of_digits three_files message "missing.csv" _
              (context_on "rows.csv") eq_refl))).
Defined.

Lemma X15_witness :
  three_files "rows.csv" = inr three_rows
  /\ column_as_float float_of_digits three_rows "x"
     = inr [Fin 0; Fin 10; Fin 10]
  /\ column_as_float float_of_digits three_rows "y"
     = inr [Fin 0; Fin 0; Fin 10]
  /\ exists first second,
       objects (snd (CSV_OT_VisualizeGraph_execute float_of_digits
                       three_files message (context_on "rows.csv")))
       = ([] ++ first)%list
       /\ objects
            (snd (CSV_OT_VisualizeGraph_execute float_of_digits three_files
                    message
                    (snd (CSV_OT_VisualizeGraph_execute float_of_digits
                            three_files message (context_on "rows.csv")))))
          = ([] ++ first ++ second)%list
       /\ map location second = map location first.
Proof.
  split; [reflexivity|]. split; [reflexivity|]. split; [reflexivity|].
  destruct (X15_visualize_twice_accumulates float_of_digits three_files
              message (context_on "rows.csv") three_rows _ _
              eq_refl eq_refl eq_refl)
    as (L1 & L2 & H1 & H2 & _ & Hloc & _).
  exists L1, L2. repeat split; assumption.
Defined.

Lemma X17_witness :
  three_files "missing.csv"
  = inl (OtherError "FileNotFoundError" "No such file or directory")
  /\ CSV_PT_VisualizerPanel_draw posix_basename
       (snd (CSV_OT_LoadFile_execute three_files message "missing.csv"
               (context_on "rows.csv")))
       []
     = (inr tt,
        [UIOperator "csv.load_file" "FILE_FOLDER";
         UILabel "Error reading CSV: No such file or directory" "ERROR"]).
Proof.
  split; [reflexivity|].
  exact (proj1 (X17_panel_follows_the_outcome_of_the_load three_files
                  message posix_basename "missing.csv"
                  (context_on "rows.csv")) _ eq_refl).
Defined.

Lemma X18_witness :
  (forall cls, In cls classes -> ~ In cls (registered_classes fresh_host))
  /\ Scene_csv_visualizer fresh_host = None
  /\ exists h1,
       register fresh_host = (inr tt, h1)
       /\ unregister h1 = (inr tt, fresh_host).
Proof.
  assert (H : forall cls, In cls classes ->
                ~ In cls (registered_classes fresh_host)).
  { intros cls [<- | [<- | [<- | [<- | []]]]] [E | []]; discriminate E. }
  split; [exact H|]. split; [reflexivity|].
  destruct (X18_register_then_unregister_restores_the_host fresh_host H
              eq_refl) as (h1 & Hreg & _ & _ & Hun).
  exists h1. split; assumption.
Defined.

Lemma X19_witness :
  ~ In "CSV_PT_VisualizerPanel" (registered_classes fresh_host)
  /\ exists e, unregister fresh_host = (inl e, fresh_host).
Proof.
  assert (H : ~ In "CSV_PT_VisualizerPanel" (registered_classes fresh_host)).
  { intros [E | []]. discriminate E. }
  split; [exact H|].
  exact (proj2 (X19_register_twice_and_unregister_unregistered_fail
                  fresh_host) H).
Defined.

Lemma X20_witness :
  three_files "rows.csv" = inr three_rows
  /\ column_as_float float_of_digits three_rows "x"
     = inr [Fin 0; Fin 10; Fin 10]
  /\ column_as_float float_of_digits three_rows "y"
     = inr [Fin 0; Fin 0; Fin 10]
  /\ fst (CSV_OT_VisualizeGraph_execute float_of_digits three_files message
            (snd (CSV_OT_LoadFile_execute three_files message "rows.csv"
                    (context_on "missing.csv"))))
     = inr FINISHED.
Proof.
  split; [reflexivity|]. split; [reflexivity|]. split; [reflexivity|].
  exact (proj1 (proj2
           (X20_visualize_draws_the_file_just_loaded float_of_digits
              three_files message "rows.csv" (context_on "missing.csv")
              three_rows _ _ eq_refl eq_refl eq_refl))).
Defined.

Lemma X21_witness :
  column_as_float float_of_digits gap_row "x" = inr [Fin 0; NaN; Fin 10]
  /\ column_as_float float_of_digits gap_row "y"
     = inr [Fin 0; Fin 5; Fin 10]
  /\ exists placements connectors,
       create_ball_stick_model float_of_digits gap_row "x" "y" 5 (2 # 10)
         (5 # 100) []
       = (inr tt, ([] ++ placements ++ connectors)%list)
       /\ List.length placements = 3%nat
       /\ forall o, nth_error placements 1 = Some o ->
            xcoord (location o) = NaN.
Proof.
  split; [reflexivity|]. split; [reflexivity|].
  destruct (X21_empty_cells_are_kept_and_do_not_move_the_others
              float_of_digits gap_row "x" "y" 5 (2 # 10) (5 # 100) _ _ []
              eq_refl eq_refl)
    as (ps & cs & Hrun & Hlen & Hnan & _).
  exists ps, cs. split; [exact Hrun|]. split; [exact Hlen|].
  intros o Ho. exact (Hnan 1%nat o Ho eq_refl).
Defined.
